(** * douban-to-imdb: a shallow embedding of the exporter and the importer

    The development follows the two scripts of the repository:

    - [douban_to_csv.py] (the exporter): [get_rating], [get_imdb_id],
      [get_info], [export], [make_request], [setup_driver], [quit_driver]
      and the entry point;
    - [csv_to_imdb.py] (the importer): [mark] and the entry point.

    Python values are modelled as follows.  Text is a [string] whose
    characters are code points below 128 (the tables of Unicode digits and
    spaces that Python consults for other code points are not modelled).
    Integers are [Z].  [None] is [None].  A call that may raise returns a
    [res]: either [Ret v] or [Raise e].  Global variables of a script are the
    fields of a record threaded through the functions that read or write
    them.  What the network, the browser and the clock answer is supplied
    by an explicit environment argument. *)

From Stdlib Require Import String Ascii List ZArith QArith Bool Arith Lia.
From Stdlib Require Import DecimalString DecimalPos Lqa.
Import ListNotations.

Local Close Scope Q_scope.
Local Open Scope Z_scope.
Local Open Scope list_scope.
Local Open Scope string_scope.

(** ** Python primitives used by the two scripts *)

Module Py.

(** The exception classes that the scripts raise, catch or let through. *)
Inductive exn : Type :=
| ValueError
| IndexError
| AttributeError
| KeyboardInterrupt
| SystemExit
| NoSuchElementException
| TimeoutException
| WebDriverException
| SSLError
| ProxyError
| RequestException (msg : string)
| CsvError
| OtherException.

(** [except Exception] catches every class above but the two that derive
    from [BaseException] only. *)
Definition is_Exception (e : exn) : bool :=
  match e with
  | KeyboardInterrupt | SystemExit => false
  | _ => true
  end.

Inductive res (A : Type) : Type :=
| Ret (a : A)
| Raise (e : exn).
Arguments Ret {A} a.
Arguments Raise {A} e.

Definition bind {A B : Type} (m : res A) (k : A -> res B) : res B :=
  match m with
  | Ret a => k a
  | Raise e => Raise e
  end.

Definition code (c : ascii) : nat := nat_of_ascii c.

(** C's [isspace] in the "C" locale, which [int()] uses on ASCII text. *)
Definition Py_ISSPACE (c : ascii) : bool :=
  ((9 <=? code c) && (code c <=? 13))%nat || (code c =? 32)%nat.

(** The whitespace of [str.strip()] and [str.isspace()] below 128. *)
Definition Py_UNICODE_ISSPACE (c : ascii) : bool :=
  ((9 <=? code c) && (code c <=? 13))%nat
  || ((28 <=? code c) && (code c <=? 32))%nat.

Definition is_digit (c : ascii) : bool :=
  ((48 <=? code c) && (code c <=? 57))%nat.

Definition digit_value (c : ascii) : Z := Z.of_nat (code c) - 48.

(** [s.lstrip()], [s.rstrip()], [s.strip()] *)
Fixpoint lstrip (s : string) : string :=
  match s with
  | EmptyString => EmptyString
  | String c r => if Py_UNICODE_ISSPACE c then lstrip r else s
  end.

Fixpoint rstrip (s : string) : string :=
  match s with
  | EmptyString => EmptyString
  | String c r =>
      match rstrip r with
      | EmptyString =>
          if Py_UNICODE_ISSPACE c then EmptyString else String c EmptyString
      | r' => String c r'
      end
  end.

Definition strip (s : string) : string := rstrip (lstrip s).

(** [s.startswith(p)] *)
Definition startswith (p s : string) : bool := String.prefix p s.

(** [s.endswith(p)] *)
Definition endswith (p s : string) : bool :=
  (String.length p <=? String.length s)%nat
  && String.eqb (String.substring (String.length s - String.length p)%nat
                                  (String.length p) s) p.

(** [sub in s] *)
Fixpoint contains (sub s : string) : bool :=
  String.prefix sub s
  || match s with
     | EmptyString => false
     | String _ r => contains sub r
     end.

(** [s[n:]] for [n >= 0] *)
Fixpoint slice_from (n : nat) (s : string) : string :=
  match n, s with
  | O, _ => s
  | S n', String _ r => slice_from n' r
  | S _, EmptyString => EmptyString
  end.

(** [s.isdigit()]: at least one character, all of them digits. *)
Fixpoint all_digits (s : string) : bool :=
  match s with
  | EmptyString => true
  | String c r => is_digit c && all_digits r
  end.

Definition isdigit (s : string) : bool :=
  match s with
  | EmptyString => false
  | _ => all_digits s
  end.

(** [s.replace(old, new)]: the occurrences of [old] are found from left to
    right and do not overlap.  [skip] counts the characters of a match that
    are still to be dropped. *)
Fixpoint replace_from (old new : string) (skip : nat) (s : string) : string :=
  match s with
  | EmptyString => EmptyString
  | String c r =>
      match skip with
      | S k => replace_from old new k r
      | O =>
          if String.prefix old s
          then new ++ replace_from old new (String.length old - 1)%nat r
          else String c (replace_from old new 0 r)
      end
  end.

Definition replace (old new s : string) : string :=
  match old with
  | EmptyString => s   (* never called with an empty pattern here *)
  | _ => replace_from old new 0 s
  end.

(** [int(s)] in base 10, as [PyLong_FromString] reads it: whitespace, an
    optional sign, digits that single underscores may separate, whitespace.
    Anything else is a [ValueError].  (The limit that recent interpreters
    put on the number of digits is not modelled.) *)
Fixpoint scan_digits (acc : Z) (after_underscore : bool) (s : string)
  : option (Z * string) :=
  match s with
  | EmptyString => if after_underscore then None else Some (acc, EmptyString)
  | String c r =>
      if is_digit c then scan_digits (10 * acc + digit_value c) false r
      else if Ascii.eqb c "_"
           then (if after_underscore then None else scan_digits acc true r)
           else (if after_underscore then None else Some (acc, s))
  end.

Fixpoint skip_spaces (s : string) : string :=
  match s with
  | EmptyString => EmptyString
  | String c r => if Py_ISSPACE c then skip_spaces r else s
  end.

Definition unsigned_literal (sign : Z) (s : string) : res Z :=
  match s with
  | String c _ =>
      if is_digit c
      then match scan_digits 0 false s with
           | Some (v, rest) =>
               match skip_spaces rest with
               | EmptyString => Ret (sign * v)
               | _ => Raise ValueError
               end
           | None => Raise ValueError
           end
      else Raise ValueError
  | EmptyString => Raise ValueError
  end.

Definition int (s : string) : res Z :=
  match skip_spaces s with
  | String "+" r => unsigned_literal 1 r
  | String "-" r => unsigned_literal (-1) r
  | t => unsigned_literal 1 t
  end.

(** [str(n)] for an integer. *)
Definition str (n : Z) : string :=
  DecimalString.NilZero.string_of_int (Z.to_int n).

(** [l[i]] on a list: an [IndexError] outside the list. *)
Definition index {A : Type} (l : list A) (i : nat) : res A :=
  match nth_error l i with
  | Some x => Ret x
  | None => Raise IndexError
  end.

End Py.

(** ** State and exceptions

    A function that reads or writes module-level variables, or that talks
    to the outside, takes the current state [W] and returns the new one
    together with its result; the state survives a raised exception. *)

Module Eff.

Definition M (W A : Type) : Type := W -> Py.res A * W.

Definition ret {W A : Type} (a : A) : M W A := fun w => (Py.Ret a, w).

Definition raise {W A : Type} (e : Py.exn) : M W A := fun w => (Py.Raise e, w).

Definition bind {W A B : Type} (m : M W A) (k : A -> M W B) : M W B :=
  fun w =>
    match m w with
    | (Py.Ret a, w') => k a w'
    | (Py.Raise e, w') => (Py.Raise e, w')
    end.

(** [try: m  except <classes>: h]: [handles e] tells whether the clause
    covers [e]; an exception that it does not cover propagates. *)
Definition try_except {W A : Type} (m : M W A)
           (handles : Py.exn -> bool) (h : Py.exn -> M W A) : M W A :=
  fun w =>
    match m w with
    | (Py.Raise e, w') => if handles e then h e w' else (Py.Raise e, w')
    | r => r
    end.

(** [try: m  finally: f] *)
Definition try_finally {W A : Type} (m : M W A) (f : M W unit) : M W A :=
  fun w =>
    match m w with
    | (r, w') =>
        match f w' with
        | (Py.Ret _, w'') => (r, w'')
        | (Py.Raise e, w'') => (Py.Raise e, w'')
        end
    end.

Definition lift {W A : Type} (r : Py.res A) : M W A := fun w => (r, w).

Definition get {W : Type} : M W W := fun w => (Py.Ret w, w).

Definition modify {W : Type} (f : W -> W) : M W unit :=
  fun w => (Py.Ret tt, f w).

End Eff.

Notation "x <- m ;; k" := (Eff.bind m (fun x => k))
  (at level 61, m at next level, right associativity).
Notation "m ;;; k" := (Eff.bind m (fun _ => k))
  (at level 61, right associativity).

(** ** The [csv] module and text files, as the two scripts use them

    Both scripts keep the default "excel" dialect (delimiter [,], the double quote as quote
    character, doubled quotes, minimal quoting, no escape character,
    not strict) and pass [lineterminator='\n'], which only the writer
    reads.  The reader is the one of CPython 3.11 and later, for which a
    NUL character is a character like any other. *)

Module Csv.

Definition LF : ascii := "010"%char.
Definition CR : ascii := "013"%char.
Definition delimiter : ascii := ","%char.
Definition quotechar : ascii := "034"%char.
Definition lineterminator : string := String LF EmptyString.

(** A value handed to [writerow]: the exporter writes text, integers and
    [None]. *)
Inductive cell : Type :=
| CStr (s : string)
| CInt (n : Z)
| CNone.

(** The text that [writerow] writes for a value: [None] is written as the
    empty field, an integer through [str]. *)
Definition cell_text (c : cell) : string :=
  match c with
  | CStr s => s
  | CInt n => Py.str n
  | CNone => EmptyString
  end.

Section Writer.

(** Whether the writer quotes a field that holds a carriage return or a
    line feed whatever the line terminator is.  Recent interpreters do;
    older ones quote the characters of the line terminator only. *)
Variable quote_newlines : bool.

Definition in_lineterminator (c : ascii) : bool := Ascii.eqb c LF.

(** [join_append_data]: does the character force the field into quotes? *)
Definition special (c : ascii) : bool :=
  Ascii.eqb c delimiter || Ascii.eqb c quotechar
  || (quote_newlines && (Ascii.eqb c LF || Ascii.eqb c CR))
  || in_lineterminator c.

Fixpoint needs_quotes (s : string) : bool :=
  match s with
  | EmptyString => false
  | String c r => special c || needs_quotes r
  end.

(** The characters of a field, a quote character written twice. *)
Fixpoint field_data (s : string) : string :=
  match s with
  | EmptyString => EmptyString
  | String c r =>
      if Ascii.eqb c quotechar
      then String quotechar (String quotechar (field_data r))
      else String c (field_data r)
  end.

Definition join_append (s : string) : string :=
  if needs_quotes s
  then String quotechar (field_data s ++ String quotechar EmptyString)
  else field_data s.

Fixpoint join (fields : list string) : string :=
  match fields with
  | [] => EmptyString
  | [f] => f
  | f :: rest => f ++ String delimiter (join rest)
  end.

(** [writer.writerow(row)]: a record made of one empty field is written as
    a pair of quotes. *)
Definition writerow (row : list cell) : string :=
  let rec := join (map (fun c => join_append (cell_text c)) row) in
  match row, rec with
  | _ :: _, EmptyString => String quotechar (String quotechar lineterminator)
  | _, _ => rec ++ lineterminator
  end.

(** [writer.writerows(rows)]: what ends up in the file, opened with
    [newline=''] so that nothing is translated on the way. *)
Definition writerows (rows : list (list cell)) : string :=
  String.concat EmptyString (map writerow rows).

End Writer.

(** A file opened for reading in text mode without [newline]: a carriage
    return, alone or before a line feed, is read as a line feed. *)
Fixpoint universal_newlines (s : string) : string :=
  match s with
  | EmptyString => EmptyString
  | String c r =>
      if Ascii.eqb c CR
      then match r with
           | String c' r' =>
               if Ascii.eqb c' LF
               then String LF (universal_newlines r')
               else String LF (universal_newlines r)
           | EmptyString => String LF EmptyString
           end
      else String c (universal_newlines r)
  end.

(** Iterating over a text file: the lines, each with its final line feed. *)
Fixpoint lines (s : string) : list string :=
  match s with
  | EmptyString => []
  | String c r =>
      if Ascii.eqb c LF then String c EmptyString :: lines r
      else match lines r with
           | [] => [String c EmptyString]
           | l :: ls => String c l :: ls
           end
  end.

(** The states of the reader that the dialect can reach. *)
Inductive parser_state : Type :=
| START_RECORD
| START_FIELD
| IN_FIELD
| IN_QUOTED_FIELD
| QUOTE_IN_QUOTED_FIELD
| EAT_CRNL.

Record reader : Type := {
  state : parser_state;
  field : string;          (* the characters of the field being read *)
  fields : list string     (* the fields of the record being read *)
}.

Definition parse_reset : reader :=
  {| state := START_RECORD; field := EmptyString; fields := [] |}.

Definition parse_add_char (self : reader) (c : ascii) : reader :=
  {| state := state self;
     field := field self ++ String c EmptyString;
     fields := fields self |}.

Definition parse_save_field (self : reader) : reader :=
  {| state := state self;
     field := EmptyString;
     fields := fields self ++ [field self] |}.

Definition set_state (self : reader) (st : parser_state) : reader :=
  {| state := st; field := field self; fields := fields self |}.

Definition is_newline (c : ascii) : bool := Ascii.eqb c LF || Ascii.eqb c CR.

(** [parse_process_char]; [None] stands for the end-of-line marker [EOL]
    that the reader feeds after the characters of each line. *)
Definition start_field (self : reader) (c : option ascii) : Py.res reader :=
  match c with
  | None => Py.Ret (set_state (parse_save_field self) START_RECORD)
  | Some ch =>
      if is_newline ch then Py.Ret (set_state (parse_save_field self) EAT_CRNL)
      else if Ascii.eqb ch quotechar then Py.Ret (set_state self IN_QUOTED_FIELD)
      else if Ascii.eqb ch delimiter then Py.Ret (parse_save_field self)
      else Py.Ret (set_state (parse_add_char self ch) IN_FIELD)
  end.

Definition parse_process_char (self : reader) (c : option ascii)
  : Py.res reader :=
  match state self with
  | START_RECORD =>
      match c with
      | None => Py.Ret self
      | Some ch =>
          if is_newline ch then Py.Ret (set_state self EAT_CRNL)
          else start_field (set_state self START_FIELD) c
      end
  | START_FIELD => start_field self c
  | IN_FIELD =>
      match c with
      | None => Py.Ret (set_state (parse_save_field self) START_RECORD)
      | Some ch =>
          if is_newline ch
          then Py.Ret (set_state (parse_save_field self) EAT_CRNL)
          else if Ascii.eqb ch delimiter
               then Py.Ret (set_state (parse_save_field self) START_FIELD)
               else Py.Ret (parse_add_char self ch)
      end
  | IN_QUOTED_FIELD =>
      match c with
      | None => Py.Ret self
      | Some ch =>
          if Ascii.eqb ch quotechar
          then Py.Ret (set_state self QUOTE_IN_QUOTED_FIELD)
          else Py.Ret (parse_add_char self ch)
      end
  | QUOTE_IN_QUOTED_FIELD =>
      match c with
      | None => Py.Ret (set_state (parse_save_field self) START_RECORD)
      | Some ch =>
          if Ascii.eqb ch quotechar
          then Py.Ret (set_state (parse_add_char self ch) IN_QUOTED_FIELD)
          else if Ascii.eqb ch delimiter
               then Py.Ret (set_state (parse_save_field self) START_FIELD)
               else if is_newline ch
                    then Py.Ret (set_state (parse_save_field self) EAT_CRNL)
                    else Py.Ret (set_state (parse_add_char self ch) IN_FIELD)
      end
  | EAT_CRNL =>
      match c with
      | None => Py.Ret (set_state self START_RECORD)
      | Some ch =>
          if is_newline ch then Py.Ret self
          else Py.Raise Py.CsvError
               (* "new-line character seen in unquoted field" *)
      end
  end.

(** The characters of one line, then [EOL]. *)
Fixpoint feed_line (self : reader) (line : string) : Py.res reader :=
  match line with
  | EmptyString => parse_process_char self None
  | String c r =>
      match parse_process_char self (Some c) with
      | Py.Ret self' => feed_line self' r
      | Py.Raise e => Py.Raise e
      end
  end.

Definition is_START_RECORD (st : parser_state) : bool :=
  match st with START_RECORD => true | _ => false end.

Definition is_IN_QUOTED_FIELD (st : parser_state) : bool :=
  match st with IN_QUOTED_FIELD => true | _ => false end.

(** [for line in csv.reader(file)]: [Reader_iternext] takes lines until the
    parser is back in [START_RECORD], then hands the fields out and starts
    afresh.  The rows come out one by one, so the rows read before an error
    have been handed out already: the result is those rows and the error,
    if any.  At the end of the input a record that is still open is handed
    out as it stands. *)
Fixpoint read_from (self : reader) (ls : list string)
  : list (list string) * option Py.exn :=
  match ls with
  | [] =>
      if negb (String.eqb (field self) EmptyString)
         || is_IN_QUOTED_FIELD (state self)
      then ([fields (parse_save_field self)], None)
      else ([], None)
  | l :: rest =>
      match feed_line self l with
      | Py.Raise e => ([], Some e)
      | Py.Ret self' =>
          if is_START_RECORD (state self')
          then let (rows, err) := read_from parse_reset rest in
               (fields self' :: rows, err)
          else read_from self' rest
      end
  end.

(** [csv.reader(open(file_name, 'r', encoding='utf-8'))] over a file that
    holds [content]. *)
Definition reader_rows (content : string) : list (list string) * option Py.exn :=
  read_from parse_reset (lines (universal_newlines content)).

End Csv.

(** ** [datetime.strptime] and [strftime] for the formats of the exporter *)

Module Datetime.

Local Open Scope Z_scope.

(** A [datetime] at midnight: the exporter never reads a time of day. *)
Record datetime : Type := { year : Z; month : Z; day : Z }.

Definition is_leap (y : Z) : bool :=
  (y mod 4 =? 0) && (negb (y mod 100 =? 0) || (y mod 400 =? 0)).

Definition days_in_month (y m : Z) : Z :=
  if m =? 2 then (if is_leap y then 29 else 28)
  else if (m =? 4) || (m =? 6) || (m =? 9) || (m =? 11) then 30
  else 31.

(** The check that building the date performs. *)
Definition valid (y m d : Z) : bool :=
  (1 <=? y) && (y <=? 9999) && (1 <=? m) && (m <=? 12)
  && (1 <=? d) && (d <=? days_in_month y m).

Definition between (lo hi : ascii) (c : ascii) : bool :=
  (Py.code lo <=? Py.code c)%nat && (Py.code c <=? Py.code hi)%nat.

(** A two-character alternative of a directive, such as [1[0-2]]. *)
Definition two (p1 p2 : ascii -> bool) (s : string) : list (Z * string) :=
  match s with
  | String a (String b r) =>
      if p1 a && p2 b
      then [(10 * Py.digit_value a + Py.digit_value b, r)]
      else []
  | _ => []
  end.

(** A one-character alternative, such as [[1-9]]. *)
Definition one (p : ascii -> bool) (s : string) : list (Z * string) :=
  match s with
  | String a r => if p a then [(Py.digit_value a, r)] else []
  | _ => []
  end.

(** [%Y] is [\d\d\d\d]. *)
Definition directive_Y (s : string) : option (Z * string) :=
  match s with
  | String a (String b (String c (String d r))) =>
      if Py.is_digit a && Py.is_digit b && Py.is_digit c && Py.is_digit d
      then Some (1000 * Py.digit_value a + 100 * Py.digit_value b
                 + 10 * Py.digit_value c + Py.digit_value d, r)
      else None
  | _ => None
  end.

(** [%m] is [1[0-2]|0[1-9]|[1-9]]: the ways to read a month at the head of
    [s], in the order in which the regular expression tries them. *)
Definition directive_m (s : string) : list (Z * string) :=
  (two (Ascii.eqb "1") (between "0" "2") s
   ++ two (Ascii.eqb "0") (between "1" "9") s
   ++ one (between "1" "9") s)%list.

(** [%d] is [3[0-1]|[1-2]\d|0[1-9]|[1-9]| [1-9]]. *)
Definition directive_d (s : string) : list (Z * string) :=
  (two (Ascii.eqb "3") (between "0" "1") s
   ++ two (between "1" "2") Py.is_digit s
   ++ two (Ascii.eqb "0") (between "1" "9") s
   ++ one (between "1" "9") s
   ++ match s with
      | String " " r => one (between "1" "9") r
      | _ => []
      end)%list.

Definition eat (sep s : string) : option string :=
  if String.prefix sep s then Some (Py.slice_from (String.length sep) s)
  else None.

(** The first way of reading the month after which the separator and a day
    can be read too: the regular expression backtracks over the
    alternatives of the month only. *)
Fixpoint month_and_day (sep : string) (months : list (Z * string))
  : option (Z * Z * string) :=
  match months with
  | [] => None
  | (m, r) :: others =>
      match eat sep r with
      | Some r' =>
          match directive_d r' with
          | (d, rest) :: _ => Some (m, d, rest)
          | [] => month_and_day sep others
          end
      | None => month_and_day sep others
      end
  end.

(** [datetime.strptime(s, "%Y" sep "%m" sep "%d")]: the text has to match
    from its start, nothing may remain after the match, and the date has to
    exist. *)
Definition strptime_ymd (sep s : string) : Py.res datetime :=
  match directive_Y s with
  | None => Py.Raise Py.ValueError
  | Some (y, r1) =>
      match eat sep r1 with
      | None => Py.Raise Py.ValueError
      | Some r2 =>
          match month_and_day sep (directive_m r2) with
          | Some (m, d, EmptyString) =>
              if valid y m d
              then Py.Ret {| year := y; month := m; day := d |}
              else Py.Raise Py.ValueError
          | _ => Py.Raise Py.ValueError
          end
      end
  end.

(** The exporter calls [strptime] with four formats only. *)
Definition strptime (s fmt : string) : Py.res datetime :=
  if String.eqb fmt "%Y-%m-%d" then strptime_ymd "-" s
  else if String.eqb fmt "%Y.%m.%d" then strptime_ymd "." s
  else if String.eqb fmt "%Y/%m/%d" then strptime_ymd "/" s
  else if String.eqb fmt "%Y%m%d" then strptime_ymd "" s
  else Py.Raise Py.ValueError.

Fixpoint zeros (n : nat) : string :=
  match n with
  | O => EmptyString
  | S k => String "0" (zeros k)
  end.

Definition zfill (width : nat) (s : string) : string :=
  zeros (width - String.length s) ++ s.

(** [d.strftime('%Y-%m-%d')], the year written with four digits, as the
    documentation of [datetime] has it (on some platforms the C library
    writes a year below 1000 with fewer digits; this is not modelled). *)
Definition strftime (d : datetime) : string :=
  zfill 4 (Py.str (year d)) ++ "-" ++ zfill 2 (Py.str (month d))
  ++ "-" ++ zfill 2 (Py.str (day d)).

(** [a <= b] *)
Definition le (a b : datetime) : bool :=
  (year a <? year b)
  || ((year a =? year b)
      && ((month a <? month b)
          || ((month a =? month b) && (day a <=? day b)))).

End Datetime.

(** ** The exporter, [douban_to_csv.py] *)

Module DoubanToCsv.

Import Eff.
Local Open Scope Z_scope.

Definition MAX_RETRIES : nat := 3.
Definition RETRY_DELAY : Z := 5.

(** *** Documents

    A response is represented by the document that [BeautifulSoup] builds
    from its text; a document and its elements are represented by the
    answers to the queries that the exporter makes on them. *)

(** An element: its text and the text of its first [em] descendant. *)
Record tag : Type := { text : string; em : option string }.

(** What follows a [span]: nothing, a piece of text, or an element. *)
Inductive sibling : Type :=
| NoSibling
| TextNode (s : string)
| TagNode.

(** The element [#info] of a detail page. *)
Record info : Type := {
  pl_spans : list (string * sibling);
      (* find_all("span", class_="pl"): text and next_sibling of each *)
  stripped_strings : list string
}.

(** A [div.item] of a collection page. *)
Record item : Type := {
  li_title : option tag;       (* item.find("li", {"class": "title"}) *)
  title_a : option tag;        (* item.select_one(".title a") *)
  a_title : option tag;        (* item.select_one("a.title") *)
  link_href : option string;   (* item.find("a", href=True)["href"] *)
  rating_span : option (list string);
      (* the classes of item.find("span", class_=... startswith("rating")) *)
  alt_rating : option (list string);
      (* the classes of item.select_one(".rate-stars") or (".rating") *)
  date_span : option string;   (* item.find("span", {"class": "date"}).text *)
  date_alt : option string
      (* the text of the first of .date, time, .time, .collect-date *)
}.

Record soup : Type := {
  soup_title : option string;        (* soup.title.text *)
  paginator : option (list string);
      (* the texts of the links of div.paginator *)
  movie_items : list item;           (* find_all("div", {"class": "item"}) *)
  info_section : option info;        (* select_one("#info") *)
  anchors : list string              (* the href of every a[href], in order *)
}.

(** A row of the result: [[title, rating, imdb]]. *)
Definition record : Type := (string * option Z * option string)%type.

Definition row_of_record (r : record) : list Csv.cell :=
  match r with
  | (title, rating, imdb) =>
      [Csv.CStr title;
       match rating with Some n => Csv.CInt n | None => Csv.CNone end;
       match imdb with Some s => Csv.CStr s | None => Csv.CNone end]
  end.

(** *** The outside *)

Inductive http_answer : Type :=
| HttpResponse (status_code : Z) (page : soup)
| HttpRaises (e : Py.exn).

(** What [driver.get(url)], the wait for the body and the look at the page
    lead to. *)
Inductive browser_answer : Type :=
| BrowserRaises (e : Py.exn)
| BrowserErrorPage           (* the page source shows a connection error *)
| BrowserChallengeFailed     (* handle_login_challenge returns False *)
| BrowserPage (logged_in : bool) (page : soup).
      (* handle_login_challenge returns True, having set IS_LOGGED_IN or not *)

(** The cookie and manual-login statements of the entry point. *)
Inductive session_answer : Type :=
| SessionRaises (e : Py.exn)
| SessionDone (logged_in : bool).

(** The answers of the outside, indexed by the number of answers given
    before. *)
Record environment : Type := {
  requests_get : nat -> http_answer;
  driver_get : nat -> browser_answer;
  chrome : nat -> option Py.exn;   (* starting Chrome: what it raises *)
  refresh : nat -> bool;           (* DRIVER.refresh() returns *)
  random : nat -> Q;               (* random.random() *)
  today : nat -> string;           (* date.today().strftime('%Y-%m-%d') *)
  session : nat -> session_answer;
  csv_quotes_newlines : bool       (* see [Csv.special] *)
}.

Inductive browser : Type := Chrome (started_at : nat).

(** What the exporter does to the outside, and the messages by which it
    tells its attempts and their failures apart. *)
Inductive event : Type :=
| EvChromeStart (b : browser)
| EvChromeQuit (b : browser)
| EvAttempt (attempt : nat) (selenium : bool)
| EvDriverGet (url : string)
| EvRequestsGet (url : string)
| EvHttpError (status_code : Z)
| EvCaught (e : Py.exn)
| EvRefresh
| EvSleep (seconds : Q)
| EvFailed (url : string)
| EvWriteCsv (content : string).

(** The module-level variables, the number of answers taken from the
    outside and the events so far, latest first. *)
Record world : Type := {
  START_DATE : string;
  IS_OVER : bool;
  DRIVER : option browser;
  IS_LOGGED_IN : bool;
  clock : nat;
  trace : list event
}.

Definition initial : world :=
  {| START_DATE := "20050502"; IS_OVER := false; DRIVER := None;
     IS_LOGGED_IN := false; clock := O; trace := [] |}.

Definition set_START_DATE (v : string) (w : world) : world :=
  {| START_DATE := v; IS_OVER := IS_OVER w; DRIVER := DRIVER w;
     IS_LOGGED_IN := IS_LOGGED_IN w; clock := clock w; trace := trace w |}.

Definition set_IS_OVER (v : bool) (w : world) : world :=
  {| START_DATE := START_DATE w; IS_OVER := v; DRIVER := DRIVER w;
     IS_LOGGED_IN := IS_LOGGED_IN w; clock := clock w; trace := trace w |}.

Definition set_DRIVER (v : option browser) (w : world) : world :=
  {| START_DATE := START_DATE w; IS_OVER := IS_OVER w; DRIVER := v;
     IS_LOGGED_IN := IS_LOGGED_IN w; clock := clock w; trace := trace w |}.

Definition set_IS_LOGGED_IN (v : bool) (w : world) : world :=
  {| START_DATE := START_DATE w; IS_OVER := IS_OVER w; DRIVER := DRIVER w;
     IS_LOGGED_IN := v; clock := clock w; trace := trace w |}.

Definition tick (w : world) : world :=
  {| START_DATE := START_DATE w; IS_OVER := IS_OVER w; DRIVER := DRIVER w;
     IS_LOGGED_IN := IS_LOGGED_IN w; clock := S (clock w); trace := trace w |}.

Definition record_event (e : event) (w : world) : world :=
  {| START_DATE := START_DATE w; IS_OVER := IS_OVER w; DRIVER := DRIVER w;
     IS_LOGGED_IN := IS_LOGGED_IN w; clock := clock w;
     trace := e :: trace w |}.

(** The events in the order in which they happened. *)
Definition history (w : world) : list event := rev (trace w).

Definition log (e : event) : M world unit := modify (record_event e).

(** Take the next answer of the outside. *)
Definition ask {A : Type} (oracle : nat -> A) : M world A :=
  fun w => (Py.Ret (oracle (clock w)), tick w).

(** *** Pure helpers *)

(** [get_rating] *)
Definition get_rating (rating_class : option string) : Py.res (option Z) :=
  match rating_class with
  | None => Py.Ret None
  | Some EmptyString => Py.Ret None
  | Some s =>
      match Py.int (Py.replace "-t" "" (Py.replace "rating" "" s)) with
      | Py.Ret rating_digit =>
          Py.Ret (if (1 <=? rating_digit) && (rating_digit <=? 5)
                  then Some rating_digit else None)
      | Py.Raise Py.ValueError => Py.Ret None
      | Py.Raise Py.AttributeError => Py.Ret None
      | Py.Raise e => Py.Raise e
      end
  end.

(** The first strategy of [get_imdb_id]: the text that follows a label
    holding "IMDb". *)
Fixpoint label_adjacent (spans : list (string * sibling)) : option string :=
  match spans with
  | [] => None
  | (span_text, next_sibling) :: rest =>
      if Py.contains "IMDb" span_text
      then match next_sibling with
           | TextNode (String _ _ as imdb_text) =>
               let imdb_id := Py.strip imdb_text in
               if Py.startswith "tt" imdb_id then Some imdb_id
               else label_adjacent rest
           | _ => label_adjacent rest
           end
      else label_adjacent rest
  end.

Fixpoint take_digits (s : string) : string :=
  match s with
  | String c r => if Py.is_digit c then String c (take_digits r) else EmptyString
  | EmptyString => EmptyString
  end.

(** [re.search(r'(tt\d+)', s)]: the leftmost "tt" that a digit follows,
    with all the digits that follow it. *)
Fixpoint re_search_tt (s : string) : option string :=
  match s with
  | EmptyString => None
  | String _ r =>
      if Py.startswith "tt" s
         && match Py.slice_from 2 s with
            | String d _ => Py.is_digit d
            | EmptyString => false
            end
      then Some ("tt" ++ take_digits (Py.slice_from 2 s))
      else re_search_tt r
  end.

(** The second strategy: [select_one('a[href*="imdb.com/title/tt"]')], then
    the pattern on its [href]. *)
Definition anchor_href (hrefs : list string) : option string :=
  match find (Py.contains "imdb.com/title/tt") hrefs with
  | Some href => re_search_tt href
  | None => None
  end.

(** The third strategy: the first piece of text that looks like an id. *)
Definition token_scan (strings : list string) : option string :=
  find (fun t => Py.startswith "tt" t
                 && (3 <? String.length t)%nat
                 && Py.isdigit (Py.slice_from 2 t)) strings.

(** The three strategies in the order of [get_imdb_id]. *)
Definition find_imdb_id (info_section : info) (page : soup) : option string :=
  match label_adjacent (pl_spans info_section) with
  | Some imdb_id => Some imdb_id
  | None =>
      match anchor_href (anchors page) with
      | Some imdb_id => Some imdb_id
      | None => token_scan (stripped_strings info_section)
      end
  end.

Definition or_else {A : Type} (a b : option A) : option A :=
  match a with Some _ => a | None => b end.

(** Step 1 of [get_info]: the title of an item, [None] when no title
    element is found. *)
Definition item_title (it : item) : option string :=
  let title_elem :=
    match li_title it with
    | Some e =>
        match em e with
        | Some _ => Some e
        | None => or_else (title_a it) (a_title it)
        end
    | None => or_else (title_a it) (a_title it)
    end in
  match title_elem with
  | Some e =>
      Some (match em e with
            | None => Py.strip (text e)
            | Some em_text => Py.strip em_text
            end)
  | None => None
  end.

(** Step 3: the rating. *)
Definition item_rating (it : item) : Py.res (option Z) :=
  match rating_span it with
  | Some classes =>
      Py.bind (Py.index classes 0) (fun c => get_rating (Some c))
  | None =>
      match alt_rating it with
      | Some stars =>
          match find (fun c => Py.startswith "rating" c && Py.endswith "-t" c)
                     stars with
          | Some star_class => get_rating (Some star_class)
          | None => Py.Ret None
          end
      | None => Py.Ret None
      end
  end.

(** Step 4: the text of the date, before the fallback to today. *)
Definition item_comment_date (it : item) : option string :=
  match date_span it with
  | Some t => Some (Py.strip t)
  | None =>
      match date_alt it with
      | Some t => Some (Py.strip t)
      | None => None
      end
  end.

(** The normalisation of the date: the first of the three formats that
    reads it, written back as year-month-day; the text itself when none
    does. *)
Definition normalize_date (comment_date : string) : string :=
  match Datetime.strptime comment_date "%Y-%m-%d" with
  | Py.Ret d => Datetime.strftime d
  | Py.Raise _ =>
      match Datetime.strptime comment_date "%Y.%m.%d" with
      | Py.Ret d => Datetime.strftime d
      | Py.Raise _ =>
          match Datetime.strptime comment_date "%Y/%m/%d" with
          | Py.Ret d => Datetime.strftime d
          | Py.Raise _ => comment_date
          end
      end
  end.

(** Step 5: is the date at or before the cutoff? *)
Definition at_or_before_cutoff (comment_date start_date : string)
  : Py.res bool :=
  Py.bind (Datetime.strptime comment_date "%Y-%m-%d") (fun d =>
  Py.bind (Datetime.strptime start_date "%Y%m%d") (fun c =>
  Py.Ret (Datetime.le d c))).

(** *** The functions that talk to the outside *)

Section Exporter.

Variable env : environment.

Definition sleep (seconds : Q) : M world unit := log (EvSleep seconds).

(** [random.uniform(a, b)] *)
Definition uniform (a b : Z) : M world Q :=
  x <- ask (random env) ;;
  ret (inject_Z a + inject_Z (b - a) * x)%Q.

(** [setup_driver]: the session that exists, or a new one; a failure to
    start the browser ends the process. *)
Definition setup_driver (headless : bool) : M world browser :=
  w <- get ;;
  match DRIVER w with
  | Some driver => ret driver
  | None =>
      failure <- ask (chrome env) ;;
      match failure with
      | None =>
          let driver := Chrome (clock w) in
          log (EvChromeStart driver) ;;;
          modify (set_DRIVER (Some driver)) ;;;
          ret driver
      | Some e =>
          if Py.is_Exception e then raise Py.SystemExit   (* sys.exit(1) *)
          else raise e
      end
  end.

(** [quit_driver]: whatever [DRIVER.quit()] raises is printed and dropped. *)
Definition quit_driver : M world unit :=
  w <- get ;;
  match DRIVER w with
  | Some driver =>
      log (EvChromeQuit driver) ;;;
      modify (set_DRIVER None)
  | None => ret tt
  end.

(** How one pass through the body of the retry loop ends. *)
Inductive outcome : Type :=
| Return (r : option soup)          (* return r *)
| Continue                          (* continue *)
| Fallthrough (use_selenium : bool).
      (* on to the delay at the end of the body *)

(** The delay between two attempts. *)
Definition backoff (attempt : nat) : M world unit :=
  jitter <- uniform 1 5 ;;
  sleep (inject_Z (RETRY_DELAY * 2 ^ Z.of_nat attempt) + jitter)%Q.

Definition is_some {A : Type} (o : option A) : bool :=
  match o with Some _ => true | None => false end.

(** The [try] block of [make_request]. *)
Definition attempt_body (url : string) (attempt : nat) (use_selenium : bool)
  : M world outcome :=
  w <- get ;;
  if use_selenium || is_some (DRIVER w)
  then
    log (EvAttempt attempt true) ;;;
    driver <- setup_driver false ;;
    log (EvDriverGet url) ;;;
    answer <- ask (driver_get env) ;;
    match answer with
    | BrowserRaises e => raise e
    | BrowserErrorPage => raise Py.WebDriverException
    | BrowserChallengeFailed =>
        if (attempt <? MAX_RETRIES - 1)%nat
        then backoff attempt ;;; ret Continue
        else ret (Return None)
    | BrowserPage logged_in page =>
        (if logged_in then modify (set_IS_LOGGED_IN true) else ret tt) ;;;
        ret (Return (Some page))
    end
  else
    log (EvAttempt attempt false) ;;;
    log (EvRequestsGet url) ;;;
    answer <- ask (requests_get env) ;;
    match answer with
    | HttpRaises e => raise e
    | HttpResponse status_code page =>
        if status_code =? 200 then ret (Return (Some page))
        else
          log (EvHttpError status_code) ;;;
          ret (Fallthrough (if status_code =? 403 then true else use_selenium))
    end.

(** The [except] clauses of [make_request], in their order: [SSLError] and
    [ProxyError] before [RequestException], then the two browser classes,
    then [Exception]. *)
Definition handler (url : string) (attempt : nat) (use_selenium : bool)
           (e : Py.exn) : M world outcome :=
  match e with
  | Py.SSLError =>
      log (EvCaught e) ;;;
      log (EvRequestsGet url) ;;;
      answer <- ask (requests_get env) ;;
      match answer with
      | HttpResponse status_code page =>
          if status_code =? 200 then ret (Return (Some page))
          else ret (Fallthrough use_selenium)
      | HttpRaises _ => ret (Fallthrough use_selenium)
      end
  | Py.ProxyError =>
      log (EvCaught e) ;;;
      ret (Fallthrough (if (attempt <? MAX_RETRIES - 1)%nat && negb use_selenium
                        then true else use_selenium))
  | Py.RequestException msg =>
      log (EvCaught e) ;;;
      ret (Fallthrough (if Py.contains "ConnectionError" msg && negb use_selenium
                        then true else use_selenium))
  | Py.TimeoutException | Py.WebDriverException | Py.NoSuchElementException =>
      log (EvCaught e) ;;;
      w <- get ;;
      (if is_some (DRIVER w)
       then
         log EvRefresh ;;;
         refreshed <- ask (refresh env) ;;
         (if refreshed : bool then sleep (inject_Z 5) else ret tt)
       else ret tt) ;;;
      ret (Fallthrough use_selenium)
  | Py.KeyboardInterrupt | Py.SystemExit => raise e
  | _ =>
      log (EvCaught e) ;;;
      ret (Fallthrough use_selenium)
  end.

(** [for attempt in range(MAX_RETRIES)], [n] passes being left. *)
Fixpoint make_request_loop (url : string) (n attempt : nat)
         (use_selenium : bool) : M world (option soup) :=
  match n with
  | O => log (EvFailed url) ;;; ret None
  | S n' =>
      o <- try_except (attempt_body url attempt use_selenium)
                      (fun _ => true) (handler url attempt use_selenium) ;;
      match o with
      | Return r => ret r
      | Continue => make_request_loop url n' (S attempt) use_selenium
      | Fallthrough use_selenium' =>
          (if (attempt <? MAX_RETRIES - 1)%nat then backoff attempt
           else ret tt) ;;;
          make_request_loop url n' (S attempt) use_selenium'
      end
  end.

(** [make_request] *)
Definition make_request (url : string) (use_selenium : bool)
  : M world (option soup) :=
  let use_selenium :=
    if Py.contains "douban.com" url && negb use_selenium then true
    else use_selenium in
  make_request_loop url MAX_RETRIES 0 use_selenium.

(** [get_imdb_id] *)
Definition get_imdb_id (douban_url : string) : M world (option string) :=
  try_except
    (r <- make_request douban_url true ;;
     match r with
     | None => ret None
     | Some page =>
         match info_section page with
         | None => ret None
         | Some info_section => ret (find_imdb_id info_section page)
         end
     end)
    Py.is_Exception
    (fun _ => ret None).

(** How the body of the loop over the items ends. *)
Inductive flow : Type := NextItem | Break.

(** The body of the loop of [get_info] for one item. *)
Definition process_item (it : item) (info : list record)
  : M world (flow * list record) :=
  try_except
    (match item_title it with
     | None => ret (NextItem, info)
     | Some title =>
         match link_href it with
         | None => ret (NextItem, info)
         | Some douban_link =>
             rating <- lift (item_rating it) ;;
             comment_date <-
               match item_comment_date it with
               | Some (String _ _ as d) => ret d
               | _ => ask (today env)
               end ;;
             let comment_date := normalize_date comment_date in
             w <- get ;;
             match at_or_before_cutoff comment_date (START_DATE w) with
             | Py.Ret true =>
                 modify (set_IS_OVER true) ;;;
                 ret (Break, info)
             | Py.Ret false =>
                 delay <- uniform 1 2 ;;
                 sleep delay ;;;
                 imdb <- get_imdb_id douban_link ;;
                 ret (NextItem, (info ++ [(title, rating, imdb)])%list)
             | Py.Raise Py.ValueError => ret (NextItem, info)
             | Py.Raise e => raise e
             end
         end
     end)
    Py.is_Exception
    (fun _ => ret (NextItem, info)).

Fixpoint get_info_loop (movie_items : list item) (info : list record)
  : M world (list record) :=
  match movie_items with
  | [] => ret info
  | it :: rest =>
      r <- process_item it info ;;
      match r with
      | (NextItem, info') => get_info_loop rest info'
      | (Break, info') => ret info'
      end
  end.

(** [get_info] *)
Definition get_info (url : string) : M world (option (list record)) :=
  r <- make_request url false ;;
  match r with
  | None => ret None
  | Some page =>
      match movie_items page with
      | [] => ret None
      | items =>
          info <- get_info_loop items [] ;;
          ret (Some info)
      end
  end.

Definition collect_url (user_id : string) : string :=
  "https://movie.douban.com/people/" ++ user_id ++ "/collect".

Definition page_url (user_id : string) (page : Z) : string :=
  "https://movie.douban.com/people/" ++ user_id ++ "/collect?start="
  ++ Py.str ((page - 1) * 15) ++ "&sort=time&rating=all&filter=all&mode=grid".

(** The largest number among the texts of the links, at least 1. *)
Fixpoint max_page_of (links : list string) (max_page : Z) : Py.res Z :=
  match links with
  | [] => Py.Ret max_page
  | link :: rest =>
      if Py.isdigit link
      then Py.bind (Py.int link) (fun page_num =>
           max_page_of rest (if max_page <? page_num then page_num
                             else max_page))
      else max_page_of rest max_page
  end.

(** [list(url_generator(user_id))] *)
Definition url_generator (user_id : string) : M world (list string) :=
  let url := collect_url user_id in
  let url := if Py.contains "mode=grid" url then url
             else url ++ "?sort=time&rating=all&filter=all&mode=grid" in
  r <- make_request url false ;;
  match r with
  | None => ret [url]
  | Some page =>
      match paginator page with
      | None => ret [url]
      | Some [] => ret [url]
      | Some page_links =>
          match max_page_of page_links 1 with
          | Py.Ret max_page =>
              ret (map (fun p => page_url user_id (Z.of_nat p))
                       (seq 1 (Z.to_nat max_page)))
          | Py.Raise e =>
              if Py.is_Exception e then ret [url] else raise e
          end
      end
  end.

(** The loop of [export] over the page addresses. *)
Fixpoint export_loop (urls : list string) (info : list record)
  : M world (list record) :=
  match urls with
  | [] => ret info
  | url :: rest =>
      w <- get ;;
      if IS_OVER w then ret info
      else
        page_info <- get_info url ;;
        let info :=
          match page_info with
          | Some ((_ :: _) as rows) => (info ++ rows)%list
          | _ => info
          end in
        w' <- get ;;
        (if negb (IS_OVER w')
         then delay <- uniform 2 5 ;; sleep delay
         else ret tt) ;;;
        export_loop rest info
  end.

(** [export] *)
Definition export (user_id : string) : M world unit :=
  urls <- url_generator user_id ;;
  info <- export_loop urls [] ;;
  match info with
  | [] => ret tt
  | _ =>
      log (EvWriteCsv (Csv.writerows (csv_quotes_newlines env)
                                     (map row_of_record info)))
  end.

(** [check_user_exist] *)
Definition check_user_exist (user_id : string) : M world bool :=
  r <- make_request ("https://movie.douban.com/people/" ++ user_id ++ "/") false ;;
  match r with
  | None => ret false
  | Some page =>
      match soup_title page with
      | Some title_text => ret (negb (Py.contains "页面不存在" title_text))
      | None => ret true
      end
  end.

(** The parsed command line. *)
Record args : Type := {
  user_id : string;
  start_date : string;
  visible : bool;
  manual_login : bool;
  no_cache : bool
}.

(** The statements of the entry point between [setup_driver] and [export]:
    loading the cookies, or the manual login. *)
Definition restore_session (a : args) : M world unit :=
  if negb (no_cache a) || manual_login a
  then
    answer <- ask (session env) ;;
    match answer with
    | SessionRaises e => raise e
    | SessionDone logged_in =>
        if logged_in then modify (set_IS_LOGGED_IN true) else ret tt
    end
  else ret tt.

(** The entry point.  [sys.exit(1)] raises [SystemExit]. *)
Definition main (a : args) : M world unit :=
  (match start_date a with
   | EmptyString => ret tt
   | d => modify (set_START_DATE d)
   end) ;;;
  exists_ <- check_user_exist (user_id a) ;;
  if negb exists_ then raise Py.SystemExit
  else
    try_finally
      (try_except
         (setup_driver (negb (visible a)) ;;;
          restore_session a ;;;
          export (user_id a))
         (fun e => match e with
                   | Py.KeyboardInterrupt => true
                   | _ => Py.is_Exception e
                   end)
         (fun e => log (EvCaught e)))
      quit_driver.

End Exporter.

End DoubanToCsv.

(** ** The importer, [csv_to_imdb.py] *)

Module CsvToImdb.

Import Eff.
Local Open Scope Z_scope.

(** What the destination site does once the importer turns to the search
    box for one row. *)
Inductive ui_answer : Type :=
| SearchRaises (e : Py.exn)
      (* waiting for the search box, typing or submitting raises *)
| MarkerMissing
      (* the look for the rating marker raises NoSuchElementException *)
| MarkerRaises (e : Py.exn)
      (* the look for the rating marker raises something else *)
| RateButtonRaises (e : Py.exn)
      (* waiting for the rating button or clicking it raises *)
| ActionRaises (e : Py.exn)
      (* the delete click, or the star and confirm clicks, raise *)
| ActionDone.

Record environment : Type := {
  login_raises : option Py.exn;    (* what login() raises, if anything *)
  ui : nat -> ui_answer
}.

Inductive event : Type :=
| EvNoCsv                         (* the message about the missing file *)
| EvUsage                         (* the message about the adjustment *)
| EvLogin
| EvSearch (imdb_id : string)
| EvOpenRating
| EvClickStar (movie_rate : Z)    (* the button labelled "Rate <movie_rate>" *)
| EvConfirm
| EvClickDelete
| EvSleep (seconds : Z)
| EvQuit
| EvSummary (is_unmark : bool) (successes : nat)
            (can_not_found second_list error_movies : list string).

(** The local variables of [mark] that its loop updates, the browser
    session, the number of answers taken from the site and the events so
    far, latest first. *)
Record world : Type := {
  driver : bool;
  success_marked : nat;
  success_unmarked : nat;
  can_not_found : list string;
  already_marked : list string;
  never_marked : list string;
  error_movies : list string;
  clock : nat;
  trace : list event
}.

Definition initial : world :=
  {| driver := false; success_marked := O; success_unmarked := O;
     can_not_found := []; already_marked := []; never_marked := [];
     error_movies := []; clock := O; trace := [] |}.

Definition set_driver (v : bool) (w : world) : world :=
  {| driver := v; success_marked := success_marked w;
     success_unmarked := success_unmarked w;
     can_not_found := can_not_found w; already_marked := already_marked w;
     never_marked := never_marked w; error_movies := error_movies w;
     clock := clock w; trace := trace w |}.

Definition incr_success_marked (w : world) : world :=
  {| driver := driver w; success_marked := S (success_marked w);
     success_unmarked := success_unmarked w;
     can_not_found := can_not_found w; already_marked := already_marked w;
     never_marked := never_marked w; error_movies := error_movies w;
     clock := clock w; trace := trace w |}.

Definition incr_success_unmarked (w : world) : world :=
  {| driver := driver w; success_marked := success_marked w;
     success_unmarked := S (success_unmarked w);
     can_not_found := can_not_found w; already_marked := already_marked w;
     never_marked := never_marked w; error_movies := error_movies w;
     clock := clock w; trace := trace w |}.

Definition append_can_not_found (x : string) (w : world) : world :=
  {| driver := driver w; success_marked := success_marked w;
     success_unmarked := success_unmarked w;
     can_not_found := (can_not_found w ++ [x])%list;
     already_marked := already_marked w;
     never_marked := never_marked w; error_movies := error_movies w;
     clock := clock w; trace := trace w |}.

Definition append_already_marked (x : string) (w : world) : world :=
  {| driver := driver w; success_marked := success_marked w;
     success_unmarked := success_unmarked w;
     can_not_found := can_not_found w;
     already_marked := (already_marked w ++ [x])%list;
     never_marked := never_marked w; error_movies := error_movies w;
     clock := clock w; trace := trace w |}.

Definition append_never_marked (x : string) (w : world) : world :=
  {| driver := driver w; success_marked := success_marked w;
     success_unmarked := success_unmarked w;
     can_not_found := can_not_found w; already_marked := already_marked w;
     never_marked := (never_marked w ++ [x])%list;
     error_movies := error_movies w;
     clock := clock w; trace := trace w |}.

Definition append_error_movies (x : string) (w : world) : world :=
  {| driver := driver w; success_marked := success_marked w;
     success_unmarked := success_unmarked w;
     can_not_found := can_not_found w; already_marked := already_marked w;
     never_marked := never_marked w;
     error_movies := (error_movies w ++ [x])%list;
     clock := clock w; trace := trace w |}.

(** The assignments at the top of [mark]. *)
Definition reset_results (w : world) : world :=
  {| driver := driver w; success_marked := O; success_unmarked := O;
     can_not_found := []; already_marked := []; never_marked := [];
     error_movies := []; clock := clock w; trace := trace w |}.

Definition tick (w : world) : world :=
  {| driver := driver w; success_marked := success_marked w;
     success_unmarked := success_unmarked w;
     can_not_found := can_not_found w; already_marked := already_marked w;
     never_marked := never_marked w; error_movies := error_movies w;
     clock := S (clock w); trace := trace w |}.

Definition record_event (e : event) (w : world) : world :=
  {| driver := driver w; success_marked := success_marked w;
     success_unmarked := success_unmarked w;
     can_not_found := can_not_found w; already_marked := already_marked w;
     never_marked := never_marked w; error_movies := error_movies w;
     clock := clock w; trace := e :: trace w |}.

Definition history (w : world) : list event := rev (trace w).

Definition log (e : event) : M world unit := modify (record_event e).

Definition sleep (seconds : Z) : M world unit := log (EvSleep seconds).

Definition ask {A : Type} (oracle : nat -> A) : M world A :=
  fun w => (Py.Ret (oracle (clock w)), tick w).

(** [movie_rate = int(line[1]) * 2 + rating_ajust] *)
Definition movie_rate_of (rating_field : string) (rating_ajust : Z)
  : Py.res Z :=
  Py.bind (Py.int rating_field) (fun n => Py.Ret (n * 2 + rating_ajust)).

(** [f'{movie_name}({imdb_id})'] *)
Definition label (movie_name imdb_id : string) : string :=
  movie_name ++ "(" ++ imdb_id ++ ")".

(** A string, a list: false when empty. *)
Definition truthy (s : string) : bool :=
  match s with EmptyString => false | _ => true end.

Section Importer.

Variable env : environment.

(** [login]: the browser session, or the exception that it raises again. *)
Definition login : M world unit :=
  log EvLogin ;;;
  match login_raises env with
  | Some e => raise e
  | None => modify (set_driver true)
  end.

(** An [except Exception] clause that records the failure of a step. *)
Definition or_record_error (m : M world unit) (entry : string) : M world unit :=
  try_except m Py.is_Exception
             (fun _ => modify (append_error_movies entry)).

(** The statements of the loop body from the search on. *)
Definition rate_on_site (is_unmark : bool) (movie_name imdb_id : string)
           (movie_rate : Z) : M world unit :=
  log (EvSearch imdb_id) ;;;
  answer <- ask (ui env) ;;
  match answer with
  | SearchRaises e => raise e
  | MarkerRaises e => sleep 3 ;;; raise e
  | MarkerMissing =>
      sleep 3 ;;;
      if is_unmark
      then modify (append_never_marked (label movie_name imdb_id))
      else modify (append_already_marked (label movie_name imdb_id))
  | RateButtonRaises e =>
      sleep 3 ;;;
      or_record_error (raise e) (label movie_name imdb_id ++ " - 处理错误")
  | ActionRaises e =>
      sleep 3 ;;;
      or_record_error
        (log EvOpenRating ;;;
         sleep 1 ;;;
         if is_unmark
         then or_record_error (raise e)
                (label movie_name imdb_id ++ " - 删除失败")
         else or_record_error (raise e)
                (label movie_name imdb_id ++ " - 评分失败"))
        (label movie_name imdb_id ++ " - 处理错误")
  | ActionDone =>
      sleep 3 ;;;
      log EvOpenRating ;;;
      sleep 1 ;;;
      if is_unmark
      then log EvClickDelete ;;; modify incr_success_unmarked
      else
        log (EvClickStar movie_rate) ;;;
        sleep 1 ;;;
        log EvConfirm ;;;
        modify incr_success_marked
  end ;;;
  sleep 2.

(** The body of the loop of [mark] for one line of the file. *)
Definition mark_row (is_unmark : bool) (rating_ajust : Z) (line : list string)
  : M world unit :=
  try_except
    (rating_field <- lift (Py.index line 1) ;;
     if negb (truthy rating_field) then ret tt   (* continue *)
     else
       movie_name <- lift (Py.index line 0) ;;
       movie_rate <- lift (movie_rate_of rating_field rating_ajust) ;;
       imdb_id <- lift (Py.index line 2) ;;
       if negb (truthy imdb_id) || negb (Py.startswith "tt" imdb_id)
       then modify (append_can_not_found movie_name)   (* continue *)
       else rate_on_site is_unmark movie_name imdb_id movie_rate)
    Py.is_Exception
    (fun _ =>
       match line with
       | name :: _ :: id :: _ =>
           if truthy name && truthy id
           then modify (append_error_movies (label name id ++ " - 处理异常"))
           else ret tt
       | _ => ret tt
       end).

Fixpoint mark_rows (is_unmark : bool) (rating_ajust : Z)
         (content : list (list string)) : M world unit :=
  match content with
  | [] => ret tt
  | line :: rest =>
      mark_row is_unmark rating_ajust line ;;;
      mark_rows is_unmark rating_ajust rest
  end.

(** The summary printed at the end. *)
Definition summary (is_unmark : bool) : M world unit :=
  w <- get ;;
  log (if is_unmark
       then EvSummary true (success_unmarked w) (can_not_found w)
                      (never_marked w) (error_movies w)
       else EvSummary false (success_marked w) (can_not_found w)
                      (already_marked w) (error_movies w)).

(** [mark], [file] being the content of [movie.csv]. *)
Definition mark (is_unmark : bool) (rating_ajust : Z) (file : string)
  : M world unit :=
  login ;;;
  modify reset_results ;;;
  (let (content, error) := Csv.reader_rows file in
   mark_rows is_unmark rating_ajust content ;;;
   match error with
   | Some e => raise e
   | None => ret tt
   end) ;;;
  log EvQuit ;;;
  modify (set_driver false) ;;;
  summary is_unmark.

(** The entry point: [argv] is [sys.argv], [file] the content of
    [movie.csv] when it exists.  [sys.exit()] raises [SystemExit]. *)
Definition main (argv : list string) (file : option string) : M world unit :=
  match file with
  | None => log EvNoCsv ;;; raise Py.SystemExit
  | Some content =>
      match argv with
      | _ :: arg :: _ =>
          if String.eqb arg "unmark" then mark true (-1) content
          else if negb (existsb (String.eqb arg) ["-2"; "-1"; "0"; "1"; "2"])
               then log EvUsage ;;; raise Py.SystemExit
               else
                 rating_ajust <- lift (Py.int arg) ;;
                 mark false rating_ajust content
      | _ => mark false (-1) content
      end
  end.

End Importer.

End CsvToImdb.

(** ** Notions that the statements below use *)

(** The class names that the comment in [get_rating] expects: "rating", a
    digit from 1 to 5, "-t". *)
Definition expected_rating_class (s : string) : bool :=
  existsb (String.eqb s)
          ["rating1-t"; "rating2-t"; "rating3-t"; "rating4-t"; "rating5-t"].

(** The adjustments that the entry point of the importer accepts, as it
    spells them. *)
Definition accepted_adjustments : list string := ["-2"; "-1"; "0"; "1"; "2"].

(** A destination site on which every step of every row goes through. *)
Definition obliging_site : CsvToImdb.environment :=
  {| CsvToImdb.login_raises := None;
     CsvToImdb.ui := fun _ => CsvToImdb.ActionDone |}.

(** A detail page whose only trace of the id is a link to the destination
    site. *)
Definition alien_detail_page : DoubanToCsv.soup :=
  {| DoubanToCsv.soup_title := Some "Alien";
     DoubanToCsv.paginator := None;
     DoubanToCsv.movie_items := [];
     DoubanToCsv.info_section :=
       Some {| DoubanToCsv.pl_spans :=
                 [("Director", DoubanToCsv.TagNode)];
               DoubanToCsv.stripped_strings := ["Director"; "Ridley Scott"] |};
     DoubanToCsv.anchors :=
       ["https://movie.douban.com/celebrity/1054400/";
        "https://www.imdb.com/title/tt0078748/"] |}.

(** An outside that serves [page] for every address, through the browser
    and over plain HTTP alike, and where nothing fails. *)
Definition serving (page : DoubanToCsv.soup) : DoubanToCsv.environment :=
  {| DoubanToCsv.requests_get := fun _ => DoubanToCsv.HttpResponse 200 page;
     DoubanToCsv.driver_get := fun _ => DoubanToCsv.BrowserPage false page;
     DoubanToCsv.chrome := fun _ => None;
     DoubanToCsv.refresh := fun _ => true;
     DoubanToCsv.random := fun _ => 0%Q;
     DoubanToCsv.today := fun _ => "2024-06-01";
     DoubanToCsv.session := fun _ => DoubanToCsv.SessionDone false;
     DoubanToCsv.csv_quotes_newlines := true |}.





(** Two items of a collection page, the second one dated before the
    default cutoff, and the page that shows them. *)
Definition alien_item : DoubanToCsv.item :=
  {| DoubanToCsv.li_title :=
       Some {| DoubanToCsv.text := "Alien / 1979";
               DoubanToCsv.em := Some "Alien" |};
     DoubanToCsv.title_a := None;
     DoubanToCsv.a_title := None;
     DoubanToCsv.link_href := Some "https://movie.douban.com/subject/1293181/";
     DoubanToCsv.rating_span := Some ["rating5-t"];
     DoubanToCsv.alt_rating := None;
     DoubanToCsv.date_span := Some "2024-01-02";
     DoubanToCsv.date_alt := None |}.

Definition metropolis_item : DoubanToCsv.item :=
  {| DoubanToCsv.li_title :=
       Some {| DoubanToCsv.text := "Metropolis / 1927";
               DoubanToCsv.em := Some "Metropolis" |};
     DoubanToCsv.title_a := None;
     DoubanToCsv.a_title := None;
     DoubanToCsv.link_href := Some "https://movie.douban.com/subject/1293838/";
     DoubanToCsv.rating_span := Some ["rating4-t"];
     DoubanToCsv.alt_rating := None;
     DoubanToCsv.date_span := Some "2005-05-01";
     DoubanToCsv.date_alt := None |}.

Definition two_item_page : DoubanToCsv.soup :=
  {| DoubanToCsv.soup_title := Some "Collection";
     DoubanToCsv.paginator := None;
     DoubanToCsv.movie_items := [alien_item; metropolis_item];
     DoubanToCsv.info_section := None;
     DoubanToCsv.anchors := [] |}.

Definition first_page_url : string :=
  "https://movie.douban.com/people/someone/collect?start=0&sort=time&rating=all&filter=all&mode=grid".



(** An outside that serves the collection page first and the detail page
    afterwards, and where nothing fails. *)
Definition collection_then_detail : DoubanToCsv.environment :=
  {| DoubanToCsv.requests_get :=
       fun _ => DoubanToCsv.HttpResponse 200 alien_detail_page;
     DoubanToCsv.driver_get :=
       fun t => DoubanToCsv.BrowserPage false
                  (if (t <=? 1)%nat then two_item_page
                   else alien_detail_page);
     DoubanToCsv.chrome := fun _ => None;
     DoubanToCsv.refresh := fun _ => true;
     DoubanToCsv.random := fun _ => 0%Q;
     DoubanToCsv.today := fun _ => "2024-06-01";
     DoubanToCsv.session := fun _ => DoubanToCsv.SessionDone false;
     DoubanToCsv.csv_quotes_newlines := true |}.

(** The exception classes by which a request fails in transport: those of
    [requests] and those of the browser driver. *)
Definition transport_error (e : Py.exn) : bool :=
  match e with
  | Py.SSLError | Py.ProxyError | Py.RequestException _
  | Py.TimeoutException | Py.WebDriverException => true
  | _ => false
  end.

(** An outside where the browser starts and every request, over HTTP or
    through the browser, ends in a transport error. *)
Definition always_transport_error (env : DoubanToCsv.environment) : Prop :=
  (forall t, DoubanToCsv.chrome env t = None)
  /\ (forall t, exists e,
         DoubanToCsv.requests_get env t = DoubanToCsv.HttpRaises e
         /\ transport_error e = true)
  /\ (forall t,
         DoubanToCsv.driver_get env t = DoubanToCsv.BrowserErrorPage
         \/ exists e,
             DoubanToCsv.driver_get env t = DoubanToCsv.BrowserRaises e
             /\ transport_error e = true).

(** The numbers of the attempts that a list of events holds. *)
Definition attempts_in (events : list DoubanToCsv.event) : list nat :=
  flat_map (fun e => match e with
                     | DoubanToCsv.EvAttempt k _ => [k]
                     | _ => []
                     end) events.

(** [RETRY_DELAY * (2 ** attempt) + jitter] *)
Definition delay_after (attempt : nat) (jitter : Q) : Q :=
  (inject_Z (DoubanToCsv.RETRY_DELAY * 2 ^ Z.of_nat attempt) + jitter)%Q.

(** [random.uniform(1, 5)] when [random.random()] gives [x] *)
Definition jitter_of (x : Q) : Q := (inject_Z 1 + inject_Z (5 - 1) * x)%Q.

(** The events after which [make_request] turns to the browser: the
    message about HTTP 403, the one about a proxy error, the one about a
    request error that mentions "ConnectionError". *)
Definition escalation_cause (e : DoubanToCsv.event) : bool :=
  match e with
  | DoubanToCsv.EvHttpError status_code => (status_code =? 403)%Z
  | DoubanToCsv.EvCaught Py.ProxyError => true
  | DoubanToCsv.EvCaught (Py.RequestException msg) =>
      Py.contains "ConnectionError" msg
  | _ => false
  end.

(** An outside where the browser starts and no request ever gets through. *)
Definition unreachable_site : DoubanToCsv.environment :=
  {| DoubanToCsv.requests_get :=
       fun _ => DoubanToCsv.HttpRaises
                  (Py.RequestException "ConnectionError: connection refused");
     DoubanToCsv.driver_get :=
       fun _ => DoubanToCsv.BrowserRaises Py.TimeoutException;
     DoubanToCsv.chrome := fun _ => None;
     DoubanToCsv.refresh := fun _ => true;
     DoubanToCsv.random := fun _ => (1 # 2)%Q;
     DoubanToCsv.today := fun _ => "2024-06-01";
     DoubanToCsv.session := fun _ => DoubanToCsv.SessionDone false;
     DoubanToCsv.csv_quotes_newlines := true |}.



(** An outside that answers every plain HTTP request with the status
    [status_code] and serves [page] through the browser. *)
Definition answering (status_code : Z) (page : DoubanToCsv.soup)
  : DoubanToCsv.environment :=
  {| DoubanToCsv.requests_get :=
       fun _ => DoubanToCsv.HttpResponse status_code page;
     DoubanToCsv.driver_get := fun _ => DoubanToCsv.BrowserPage false page;
     DoubanToCsv.chrome := fun _ => None;
     DoubanToCsv.refresh := fun _ => true;
     DoubanToCsv.random := fun _ => 0%Q;
     DoubanToCsv.today := fun _ => "2024-06-01";
     DoubanToCsv.session := fun _ => DoubanToCsv.SessionDone false;
     DoubanToCsv.csv_quotes_newlines := true |}.

(** Does the pass of [make_request] that starts with the flag
    [use_selenium] in the state [w] go through the browser? *)
Definition takes_browser (use_selenium : bool) (w : DoubanToCsv.world) : bool :=
  use_selenium || DoubanToCsv.is_some (DoubanToCsv.DRIVER w).

(** The page that the source site shows for a user who does not exist. *)
Definition no_such_user_page : DoubanToCsv.soup :=
  {| DoubanToCsv.soup_title := Some "页面不存在";
     DoubanToCsv.paginator := None;
     DoubanToCsv.movie_items := [];
     DoubanToCsv.info_section := None;
     DoubanToCsv.anchors := [] |}.

Definition default_args (user : string) : DoubanToCsv.args :=
  {| DoubanToCsv.user_id := user;
     DoubanToCsv.start_date := "20050502";
     DoubanToCsv.visible := false;
     DoubanToCsv.manual_login := false;
     DoubanToCsv.no_cache := false |}.

(** An outside where the operator interrupts the first page load. *)
Definition interrupted_site : DoubanToCsv.environment :=
  {| DoubanToCsv.requests_get :=
       fun _ => DoubanToCsv.HttpRaises Py.KeyboardInterrupt;
     DoubanToCsv.driver_get :=
       fun _ => DoubanToCsv.BrowserRaises Py.KeyboardInterrupt;
     DoubanToCsv.chrome := fun _ => None;
     DoubanToCsv.refresh := fun _ => true;
     DoubanToCsv.random := fun _ => 0%Q;
     DoubanToCsv.today := fun _ => "2024-06-01";
     DoubanToCsv.session := fun _ => DoubanToCsv.SessionDone false;
     DoubanToCsv.csv_quotes_newlines := true |}.

(** A destination site on which the operator interrupts the first search. *)
Definition interrupted_destination : CsvToImdb.environment :=
  {| CsvToImdb.login_raises := None;
     CsvToImdb.ui := fun _ => CsvToImdb.SearchRaises Py.KeyboardInterrupt |}.

(** The number of times the browser was started, and was quit. *)
Definition starts (events : list DoubanToCsv.event) : nat :=
  length (filter (fun e => match e with
                           | DoubanToCsv.EvChromeStart _ => true
                           | _ => false
                           end) events).

Definition quits (events : list DoubanToCsv.event) : nat :=
  length (filter (fun e => match e with
                           | DoubanToCsv.EvChromeQuit _ => true
                           | _ => false
                           end) events).



(** The three strings that a record is read back as. *)
Definition texts_of_record (r : DoubanToCsv.record) : list string :=
  map Csv.cell_text (DoubanToCsv.row_of_record r).

(** The reader as one pass over the characters of the file: what
    [Csv.read_from] does at the end of the input, at the end of a line, and
    on the characters that are left, [midline] telling whether the current
    line has begun. *)
Definition end_of_input (self : Csv.reader)
  : list (list string) * option Py.exn :=
  Csv.read_from self [].

Definition emit (row : list string) (r : list (list string) * option Py.exn)
  : list (list string) * option Py.exn :=
  (row :: fst r, snd r).

Definition end_of_line (self : Csv.reader)
           (k : Csv.reader -> list (list string) * option Py.exn)
  : list (list string) * option Py.exn :=
  match Csv.parse_process_char self None with
  | Py.Raise e => ([], Some e)
  | Py.Ret self' =>
      if Csv.is_START_RECORD (Csv.state self')
      then emit (Csv.fields self') (k Csv.parse_reset)
      else k self'
  end.

Fixpoint stream (self : Csv.reader) (midline : bool) (s : string)
  : list (list string) * option Py.exn :=
  match s with
  | EmptyString =>
      if midline then end_of_line self end_of_input else end_of_input self
  | String c r =>
      match Csv.parse_process_char self (Some c) with
      | Py.Raise e => ([], Some e)
      | Py.Ret self' =>
          if Ascii.eqb c Csv.LF
          then end_of_line self' (fun st => stream st false r)
          else stream self' true r
      end
  end.

(** A record whose title holds a carriage return. *)
Definition record_with_cr : DoubanToCsv.record :=
  ("A" ++ String Csv.CR "B", Some 4, Some "tt0000001").

(** Two records: a plain one, and one with no rating and no id whose title
    holds a comma, a quote and a line feed. *)
Definition sample_records : list DoubanToCsv.record :=
  [("Alien", Some 5, Some "tt0078748");
   ("Crouching Tiger, " ++ String Csv.quotechar "Hidden"
      ++ String Csv.LF "Dragon", None, None)].




(** ** Notions for the properties of the rest of the code *)

(** A record as the importer expects it: a rating from 1 to 5 or none, an
    id that starts with "tt" or none. *)
Definition well_formed (r : DoubanToCsv.record) : Prop :=
  match r with
  | (_, rating, imdb) =>
      match rating with Some n => (1 <= n <= 5)%Z | None => True end
      /\ match imdb with
         | Some id => Py.startswith "tt" id = true
         | None => True
         end
  end.

(** [m] raises nothing that an [except Exception] clause would catch:
    what gets out of it, if anything, is the operator's interrupt or the
    end of the process. *)
Definition quiet {W A : Type} (m : Eff.M W A) : Prop :=
  forall w e, fst (m w) = Py.Raise e -> Py.is_Exception e = false.




(** The address of the collection in grid mode, with which
    [url_generator] starts. *)
Definition grid_url (user_id : string) : string :=
  let url := DoubanToCsv.collect_url user_id in
  if Py.contains "mode=grid" url then url
  else url ++ "?sort=time&rating=all&filter=all&mode=grid".

(** A collection page whose pagination links lead up to page 3. *)
Definition three_page_collection : DoubanToCsv.soup :=
  {| DoubanToCsv.soup_title := None;
     DoubanToCsv.paginator := Some ["2"; "3"; "next"];
     DoubanToCsv.movie_items := [];
     DoubanToCsv.info_section := None;
     DoubanToCsv.anchors := [] |}.

(** What the loop of [mark] does when a step of a row raises an
    [Exception] that no inner clause stops. *)
Definition row_failure (env : CsvToImdb.environment) (line : list string)
  : Py.exn -> Eff.M CsvToImdb.world unit :=
  fun _ =>
    match line with
    | name :: _ :: id :: _ =>
        if CsvToImdb.truthy name && CsvToImdb.truthy id
        then Eff.modify (CsvToImdb.append_error_movies
                           (CsvToImdb.label name id ++ " - 处理异常"))
        else Eff.ret tt
    | _ => Eff.ret tt
    end.

(** The number of rows that the importer has put in one of its lists or
    counted as a success. *)
Definition outcomes (w : CsvToImdb.world) : nat :=
  (CsvToImdb.success_marked w + CsvToImdb.success_unmarked w
   + length (CsvToImdb.can_not_found w) + length (CsvToImdb.already_marked w)
   + length (CsvToImdb.never_marked w) + length (CsvToImdb.error_movies w))%nat.

(** The ids that a list of events searches for. *)
Definition searches (events : list CsvToImdb.event) : list string :=
  flat_map (fun e => match e with
                     | CsvToImdb.EvSearch id => [id]
                     | _ => []
                     end) events.

(** The stars that a list of events clicks, and the number of its clicks
    on the delete button. *)
Definition stars_clicked (events : list CsvToImdb.event) : list Z :=
  flat_map (fun e => match e with
                     | CsvToImdb.EvClickStar movie_rate => [movie_rate]
                     | _ => []
                     end) events.

Definition deletions (events : list CsvToImdb.event) : nat :=
  length (filter (fun e => match e with
                           | CsvToImdb.EvClickDelete => true
                           | _ => false
                           end) events).

(** What the importer never touches when it rates, and when it removes
    ratings. *)
Definition untouched (is_unmark : bool) (w : CsvToImdb.world)
  : nat * list string * nat * list Z :=
  if is_unmark
  then (CsvToImdb.success_marked w, CsvToImdb.already_marked w,
        0%nat, stars_clicked (CsvToImdb.trace w))
  else (CsvToImdb.success_unmarked w, CsvToImdb.never_marked w,
        deletions (CsvToImdb.trace w), []).

(** * Properties *)

Local Open Scope Z_scope.

(** ** Python primitives *)

Lemma unsigned_literal_raises (sign : Z) (s : string) (e : Py.exn) :
  Py.unsigned_literal sign s = Py.Raise e -> e = Py.ValueError.
Proof.
  unfold Py.unsigned_literal.
  destruct s as [|c r]; [congruence|].
  destruct (Py.is_digit c); [|congruence].
  destruct (Py.scan_digits 0 false (String c r)) as [[v rest]|]; [|congruence].
  destruct (Py.skip_spaces rest); congruence.
Qed.

(** [int] raises nothing but [ValueError]. *)
Lemma int_raises (s : string) (e : Py.exn) :
  Py.int s = Py.Raise e -> e = Py.ValueError.
Proof.
  unfold Py.int.
  destruct (Py.skip_spaces s) as [|c r] eqn:Hs.
  - apply unsigned_literal_raises.
  - destruct c as [[] [] [] [] [] [] [] []];
      apply unsigned_literal_raises.
Qed.

(** ** [get_rating] *)

Lemma get_rating_some (s : string) (n : Z) :
  DoubanToCsv.get_rating (Some s) = Py.Ret (Some n) <->
  s <> EmptyString
  /\ Py.int (Py.replace "-t" "" (Py.replace "rating" "" s)) = Py.Ret n
  /\ 1 <= n <= 5.
Proof.
  unfold DoubanToCsv.get_rating.
  destruct s as [|c r].
  - split; [discriminate | intros [H _]; congruence].
  - destruct (Py.int _) as [m|e] eqn:Hint.
    + destruct ((1 <=? m) && (m <=? 5)) eqn:Hrange.
      * apply andb_true_iff in Hrange as [H1 H5].
        apply Z.leb_le in H1. apply Z.leb_le in H5.
        split.
        -- intros H. inversion H. subst. repeat split; try lia. discriminate.
        -- intros (_ & H & _). congruence.
      * split; [discriminate|].
        intros (_ & H & H1 & H5). inversion H. subst m.
        apply Z.leb_le in H1. apply Z.leb_le in H5.
        rewrite H1, H5 in Hrange. discriminate.
    + apply int_raises in Hint. subst e.
      split; [discriminate | intros (_ & H & _); discriminate].
Qed.

Lemma get_rating_returns (rating_class : option string) :
  exists v, DoubanToCsv.get_rating rating_class = Py.Ret v.
Proof.
  destruct rating_class as [s|]; [|eexists; reflexivity].
  unfold DoubanToCsv.get_rating.
  destruct s as [|c r]; [eexists; reflexivity|].
  destruct (Py.int _) as [m|e] eqn:Hint.
  - eexists; reflexivity.
  - apply int_raises in Hint. subst e. eexists; reflexivity.
Qed.

(** C10, as the code has it.  [get_rating] is total and raises nothing:
    for [None] and for every string it returns [None] or an integer from 1
    to 5.  The class names "rating1-t" to "rating5-t" give their digit.  A
    string gives a rating exactly when what is left of it, once every
    "rating" and then every "-t" has been deleted, is read by [int] as an
    integer from 1 to 5; every other string gives [None]. *)
Theorem get_rating_total_in_range :
  forall rating_class : option string,
    (exists v, DoubanToCsv.get_rating rating_class = Py.Ret v
               /\ (v = None \/ exists n, v = Some n /\ 1 <= n <= 5))
    /\ (forall d, 1 <= d <= 5 ->
          DoubanToCsv.get_rating (Some ("rating" ++ Py.str d ++ "-t"))
          = Py.Ret (Some d))
    /\ (forall s n, rating_class = Some s ->
          (DoubanToCsv.get_rating rating_class = Py.Ret (Some n) <->
           s <> EmptyString
           /\ Py.int (Py.replace "-t" "" (Py.replace "rating" "" s)) = Py.Ret n
           /\ 1 <= n <= 5)).
Proof.
  intros rating_class. split; [|split].
  - destruct (get_rating_returns rating_class) as [v Hv].
    exists v. split; [exact Hv|].
    destruct v as [n|]; [right | left; reflexivity].
    exists n. split; [reflexivity|].
    destruct rating_class as [s|]; [|discriminate].
    apply get_rating_some in Hv. tauto.
  - intros d Hd.
    assert (d = 1 \/ d = 2 \/ d = 3 \/ d = 4 \/ d = 5) as Hcases by lia.
    destruct Hcases as [-> | [-> | [-> | [-> | ->]]]]; reflexivity.
  - intros s n ->. apply get_rating_some.
Qed.

(** C10, as the claim has it: strings that are not of the expected form
    and still give a rating. *)
Lemma get_rating_accepts_other_forms :
  expected_rating_class "rating3" = false
  /\ DoubanToCsv.get_rating (Some "rating3") = Py.Ret (Some 3)
  /\ expected_rating_class "rating04-t" = false
  /\ DoubanToCsv.get_rating (Some "rating04-t") = Py.Ret (Some 4)
  /\ expected_rating_class "5" = false
  /\ DoubanToCsv.get_rating (Some "5") = Py.Ret (Some 5)
  /\ ~ (forall s, expected_rating_class s = false ->
                  DoubanToCsv.get_rating (Some s) = Py.Ret None).
Proof.
  repeat split.
  intros H. specialize (H "rating3" eq_refl). discriminate H.
Qed.

(** ** The importer: one row *)

Lemma int_truthy (s : string) (n : Z) :
  Py.int s = Py.Ret n -> CsvToImdb.truthy s = true.
Proof.
  destruct s; [discriminate | reflexivity].
Qed.

Lemma truthy_false (s : string) : CsvToImdb.truthy s = false <-> s = EmptyString.
Proof.
  destruct s; simpl; split; congruence.
Qed.

(** C1.  For a row whose rating field [int] reads as [source], from 1 to
    5, and an adjustment from -2 to 2, the rating that [mark] computes is
    [source * 2 + adjustment], it lies between 0 and 12, and it is the star
    that [mark] clicks, unchanged, when the row has an id and the site lets
    every step through. *)
Theorem rating_conversion :
  forall (env : CsvToImdb.environment) (name rating_field imdb_id : string)
         (source adjustment : Z) (w : CsvToImdb.world),
    Py.int rating_field = Py.Ret source ->
    1 <= source <= 5 ->
    -2 <= adjustment <= 2 ->
    CsvToImdb.truthy imdb_id = true ->
    Py.startswith "tt" imdb_id = true ->
    CsvToImdb.ui env (CsvToImdb.clock w) = CsvToImdb.ActionDone ->
    CsvToImdb.movie_rate_of rating_field adjustment
    = Py.Ret (source * 2 + adjustment)
    /\ 0 <= source * 2 + adjustment <= 12
    /\ fst (CsvToImdb.mark_row env false adjustment
                               [name; rating_field; imdb_id] w) = Py.Ret tt
    /\ CsvToImdb.trace
         (snd (CsvToImdb.mark_row env false adjustment
                                  [name; rating_field; imdb_id] w))
       = ([CsvToImdb.EvSleep 2; CsvToImdb.EvConfirm; CsvToImdb.EvSleep 1;
           CsvToImdb.EvClickStar (source * 2 + adjustment);
           CsvToImdb.EvSleep 1; CsvToImdb.EvOpenRating; CsvToImdb.EvSleep 3;
           CsvToImdb.EvSearch imdb_id] ++ CsvToImdb.trace w)%list.
Proof.
  intros env name rating_field imdb_id source adjustment w
         Hint Hsource Hadj Hid Htt Hui.
  assert (Hrate : CsvToImdb.movie_rate_of rating_field adjustment
                  = Py.Ret (source * 2 + adjustment)).
  { unfold CsvToImdb.movie_rate_of. rewrite Hint. reflexivity. }
  split; [exact Hrate|]. split; [lia|].
  unfold CsvToImdb.mark_row, CsvToImdb.rate_on_site, Eff.try_except,
    Eff.bind, Eff.lift.
  simpl. rewrite (int_truthy _ _ Hint). simpl.
  rewrite Hrate, Hid, Htt. simpl.
  rewrite Hui. simpl. split; reflexivity.
Qed.

Lemma rating_conversion_witness :
  Py.int "5" = Py.Ret 5
  /\ CsvToImdb.movie_rate_of "5" (-1) = Py.Ret (5 * 2 + -1)
  /\ CsvToImdb.trace
       (snd (CsvToImdb.mark_row obliging_site false (-1)
                                ["Alien"; "5"; "tt0078748"]
                                CsvToImdb.initial))
     = [CsvToImdb.EvSleep 2; CsvToImdb.EvConfirm; CsvToImdb.EvSleep 1;
        CsvToImdb.EvClickStar (5 * 2 + -1);
        CsvToImdb.EvSleep 1; CsvToImdb.EvOpenRating; CsvToImdb.EvSleep 3;
        CsvToImdb.EvSearch "tt0078748"].
Proof.
  split; [reflexivity|].
  pose proof (rating_conversion obliging_site "Alien" "5" "tt0078748" 5 (-1)
                CsvToImdb.initial eq_refl) as H.
  destruct H as (H1 & _ & _ & H4); try reflexivity; try lia.
  split; [exact H1 | exact H4].
Defined.

(** The ends of the range are reached: nothing is clamped. *)
Lemma rating_conversion_extremes :
  CsvToImdb.movie_rate_of "1" (-2) = Py.Ret 0
  /\ CsvToImdb.movie_rate_of "5" 2 = Py.Ret 12.
Proof.
  split; reflexivity.
Qed.

(** C5, as the code has it.  A row whose rating field is empty is skipped
    with no search and without being put in any list.  A row whose rating
    field [int] reads and whose id is empty or does not start with "tt" is
    skipped with no search and its title is added to the not-found list. *)
Theorem skipped_rows :
  forall (env : CsvToImdb.environment) (is_unmark : bool) (adjustment : Z)
         (name rating_field imdb_id : string) (rest : list string)
         (w : CsvToImdb.world),
    (rating_field = EmptyString ->
     CsvToImdb.mark_row env is_unmark adjustment
                        (name :: rating_field :: imdb_id :: rest) w
     = (Py.Ret tt, w))
    /\ (forall n, Py.int rating_field = Py.Ret n ->
          imdb_id = EmptyString \/ Py.startswith "tt" imdb_id = false ->
          CsvToImdb.mark_row env is_unmark adjustment
                             (name :: rating_field :: imdb_id :: rest) w
          = (Py.Ret tt, CsvToImdb.append_can_not_found name w)
          /\ CsvToImdb.trace (CsvToImdb.append_can_not_found name w)
             = CsvToImdb.trace w
          /\ CsvToImdb.can_not_found (CsvToImdb.append_can_not_found name w)
             = (CsvToImdb.can_not_found w ++ [name])%list).
Proof.
  intros env is_unmark adjustment name rating_field imdb_id rest w. split.
  - intros ->. reflexivity.
  - intros n Hint Hid. split; [|split; reflexivity].
    unfold CsvToImdb.mark_row, Eff.try_except, Eff.bind, Eff.lift.
    simpl. rewrite (int_truthy _ _ Hint). simpl.
    unfold CsvToImdb.movie_rate_of. rewrite Hint. simpl.
    destruct Hid as [-> | Htt].
    + reflexivity.
    + rewrite Htt, orb_true_r. reflexivity.
Qed.

(** C5, as the claim has it: a row with an empty rating field is in no
    list afterwards, the not-found list included; neither is a row whose
    rating field is not a number and whose id is empty. *)
Lemma empty_rating_not_classified :
  CsvToImdb.can_not_found
    (snd (CsvToImdb.mark_row obliging_site false (-1)
                             ["Unknown Film"; ""; ""] CsvToImdb.initial))
  = []
  /\ CsvToImdb.mark_row obliging_site false (-1)
                        ["Unknown Film"; ""; "tt0000001"] CsvToImdb.initial
     = (Py.Ret tt, CsvToImdb.initial)
  /\ CsvToImdb.mark_row obliging_site false (-1)
                        ["Unknown Film"; "four"; ""] CsvToImdb.initial
     = (Py.Ret tt, CsvToImdb.initial).
Proof.
  repeat split.
Qed.

(** The scenario of the specification: a rated row with no id. *)
Lemma unknown_film_not_found :
  CsvToImdb.mark_row obliging_site false (-1)
                     ["Unknown Film"; "4"; ""] CsvToImdb.initial
  = (Py.Ret tt,
     CsvToImdb.append_can_not_found "Unknown Film" CsvToImdb.initial).
Proof.
  reflexivity.
Qed.

(** ** The importer: the command line *)

Lemma accepted_adjustments_values (arg : string) :
  In arg accepted_adjustments ->
  exists n, Py.int arg = Py.Ret n /\ -2 <= n <= 2 /\ arg = Py.str n.
Proof.
  unfold accepted_adjustments. simpl.
  intros [<- | [<- | [<- | [<- | [<- | []]]]]];
    [exists (-2) | exists (-1) | exists 0 | exists 1 | exists 2];
    (split; [reflexivity | split; [lia | reflexivity]]).
Qed.

Lemma existsb_eqb_false (arg : string) (l : list string) :
  ~ In arg l -> existsb (String.eqb arg) l = false.
Proof.
  intros Hnot. destruct (existsb (String.eqb arg) l) eqn:H; [|reflexivity].
  apply existsb_exists in H as (x & Hin & Heq).
  apply String.eqb_eq in Heq. subst x. contradiction.
Qed.

Lemma existsb_eqb_true (arg : string) (l : list string) :
  In arg l -> existsb (String.eqb arg) l = true.
Proof.
  intros Hin. apply existsb_exists. exists arg. split; [exact Hin|].
  apply String.eqb_refl.
Qed.

(** C8.  The entry point of the importer reads [sys.argv[1]] only.  With no
    argument it marks with the adjustment -1; with "unmark" it removes
    ratings; with one of "-2", "-1", "0", "1", "2" it marks with that
    adjustment, and every integer from -2 to 2 has its spelling among
    them; with any other value it prints the usage message and exits
    before [mark] is called: no login, no row. *)
Theorem importer_command_line :
  forall (env : CsvToImdb.environment) (prog content : string)
         (w : CsvToImdb.world),
    CsvToImdb.main env [prog] (Some content) w
    = CsvToImdb.mark env false (-1) content w
    /\ (forall rest,
          CsvToImdb.main env (prog :: "unmark" :: rest) (Some content) w
          = CsvToImdb.mark env true (-1) content w)
    /\ (forall n, -2 <= n <= 2 -> In (Py.str n) accepted_adjustments)
    /\ (forall arg rest, In arg accepted_adjustments ->
          exists n, Py.int arg = Py.Ret n /\ -2 <= n <= 2
                    /\ CsvToImdb.main env (prog :: arg :: rest) (Some content) w
                       = CsvToImdb.mark env false n content w)
    /\ (forall arg rest, arg <> "unmark" -> ~ In arg accepted_adjustments ->
          CsvToImdb.main env (prog :: arg :: rest) (Some content) w
          = (Py.Raise Py.SystemExit,
             CsvToImdb.record_event CsvToImdb.EvUsage w)).
Proof.
  intros env prog content w. split; [reflexivity|].
  split; [intros rest; reflexivity|].
  split.
  { intros n Hn.
    assert (n = -2 \/ n = -1 \/ n = 0 \/ n = 1 \/ n = 2) as Hc by lia.
    unfold accepted_adjustments.
    destruct Hc as [-> | [-> | [-> | [-> | ->]]]]; simpl; tauto. }
  split.
  - intros arg rest Hin.
    destruct (accepted_adjustments_values arg Hin) as (n & Hint & Hn & _).
    exists n. split; [exact Hint|]. split; [exact Hn|].
    unfold CsvToImdb.main.
    assert (String.eqb arg "unmark" = false) as ->.
    { apply String.eqb_neq. intros ->.
      unfold accepted_adjustments in Hin. simpl in Hin.
      repeat (destruct Hin as [Hin | Hin]; [discriminate|]). exact Hin. }
    change ["-2"; "-1"; "0"; "1"; "2"] with accepted_adjustments.
    rewrite (existsb_eqb_true _ _ Hin). simpl.
    unfold Eff.bind, Eff.lift. rewrite Hint. reflexivity.
  - intros arg rest Hunmark Hnot.
    unfold CsvToImdb.main.
    apply String.eqb_neq in Hunmark. rewrite Hunmark.
    change ["-2"; "-1"; "0"; "1"; "2"] with accepted_adjustments.
    rewrite (existsb_eqb_false _ _ Hnot). reflexivity.
Qed.

(** An integer of the range that is not spelt as the entry point spells
    it is refused. *)
Lemma importer_command_line_witness :
  Py.int "+1" = Py.Ret 1
  /\ CsvToImdb.main obliging_site ["csv_to_imdb.py"; "+1"] (Some "") CsvToImdb.initial
     = (Py.Raise Py.SystemExit,
        CsvToImdb.record_event CsvToImdb.EvUsage CsvToImdb.initial).
Proof.
  split; [reflexivity|].
  refine (proj2 (proj2 (proj2 (proj2
    (importer_command_line obliging_site "csv_to_imdb.py" "" CsvToImdb.initial))))
    "+1" [] _ _).
  - discriminate.
  - unfold accepted_adjustments. simpl.
    intros [H | [H | [H | [H | [H | []]]]]]; discriminate H.
Defined.

(** ** The exporter: the external id *)




(** ** The exporter: what a function leaves untouched *)

Section Keeps.

Context {X : Type} (proj : DoubanToCsv.world -> X).









End Keeps.


Section StartDate.

Variable env : DoubanToCsv.environment.









End StartDate.

(** ** The exporter: the cutoff *)

Section Cutoff.

Variable env : DoubanToCsv.environment.



(** An item in which no title element or no link is found is passed over
    before its date is looked at: it neither gives a record nor sets the
    flag, whatever its date. *)
Lemma process_item_without_title_or_link (it : DoubanToCsv.item)
      (info : list DoubanToCsv.record) (w : DoubanToCsv.world) :
  DoubanToCsv.item_title it = None \/ DoubanToCsv.link_href it = None ->
  DoubanToCsv.process_item env it info w = (Py.Ret (DoubanToCsv.NextItem, info), w).
Proof.
  unfold DoubanToCsv.process_item, Eff.try_except.
  intros [H | H]; rewrite H.
  - reflexivity.
  - destruct (DoubanToCsv.item_title it); reflexivity.
Qed.



Lemma get_info_loop_cons (x : DoubanToCsv.item)
      (l : list DoubanToCsv.item) (info : list DoubanToCsv.record)
      (w : DoubanToCsv.world) :
  DoubanToCsv.get_info_loop env (x :: l) info w
  = match DoubanToCsv.process_item env x info w with
    | (Py.Ret (DoubanToCsv.NextItem, info'), w') =>
        DoubanToCsv.get_info_loop env l info' w'
    | (Py.Ret (DoubanToCsv.Break, info'), w') => (Py.Ret info', w')
    | (Py.Raise e, w') => (Py.Raise e, w')
    end.
Proof.
  simpl. unfold Eff.bind.
  destruct (DoubanToCsv.process_item env x info w) as [[[[|] info']|e] w'];
    reflexivity.
Qed.



End Cutoff.




(** ** The exporter: [make_request] when nothing gets through *)

Ltac split_at_attempt t :=
  lazymatch t with
  | DoubanToCsv.EvAttempt _ _ :: _ => constr:(@nil DoubanToCsv.event)
  | ?x :: ?r => let p := split_at_attempt r in constr:(x :: p)
  end.

Section TransportErrors.

Variable env : DoubanToCsv.environment.
Hypothesis Henv : always_transport_error env.

Ltac use_env Hc Hh Hb :=
  repeat (match goal with
  | |- context [DoubanToCsv.chrome env ?t] => rewrite (Hc t)
  | |- context [DoubanToCsv.driver_get env ?t] =>
      let e' := fresh "e" in
      let H1 := fresh "H" in
      let H2 := fresh "H" in
      destruct (Hb t) as [H1 | (e' & H1 & H2)]; rewrite H1;
      [| destruct e'; try discriminate H2]
  | |- context [DoubanToCsv.requests_get env ?t] =>
      let e' := fresh "e" in
      let H1 := fresh "H" in
      let H2 := fresh "H" in
      destruct (Hh t) as (e' & H1 & H2); rewrite H1;
      destruct e'; try discriminate H2
  | |- context [DoubanToCsv.refresh env ?t] =>
      destruct (DoubanToCsv.refresh env t)
  end; cbn).

Lemma attempt_fails (url : string) (k : nat) (us : bool) (w : DoubanToCsv.world) :
  let r := Eff.try_except (DoubanToCsv.attempt_body env url k us) (fun _ => true)
                          (DoubanToCsv.handler env url k us) w in
  (exists us', fst r = Py.Ret (DoubanToCsv.Fallthrough us'))
  /\ exists p s,
      DoubanToCsv.trace (snd r)
      = (s ++ DoubanToCsv.EvAttempt k p :: DoubanToCsv.trace w)%list
      /\ attempts_in s = [].
Proof.
  destruct Henv as (Hc & Hh & Hb).
  destruct w as [sd over drv li clk tr].
  unfold DoubanToCsv.attempt_body, DoubanToCsv.handler,
    DoubanToCsv.setup_driver, DoubanToCsv.sleep, DoubanToCsv.log,
    DoubanToCsv.ask, Eff.try_except, Eff.bind, Eff.get, Eff.modify,
    Eff.ret, Eff.raise.
  destruct us; destruct drv as [d|]; cbn; use_env Hc Hh Hb;
    (split; [eexists; reflexivity|]);
    match goal with
    | |- exists p s, ?t = _ /\ _ =>
        let pre := split_at_attempt t in
        eexists; exists pre; split; reflexivity
    end.
Qed.

Lemma loop_step (url : string) (n k : nat) (us : bool) (w : DoubanToCsv.world) :
  exists us' p s w1,
    DoubanToCsv.trace w1
    = (s ++ DoubanToCsv.EvAttempt k p :: DoubanToCsv.trace w)%list
    /\ attempts_in s = []
    /\ DoubanToCsv.make_request_loop env url (S n) k us w
       = DoubanToCsv.make_request_loop env url n (S k) us'
           (if (k <? DoubanToCsv.MAX_RETRIES - 1)%nat
            then DoubanToCsv.record_event
                   (DoubanToCsv.EvSleep
                      (delay_after k
                         (jitter_of (DoubanToCsv.random env
                                       (DoubanToCsv.clock w1)))))
                   (DoubanToCsv.tick w1)
            else w1).
Proof.
  pose proof (attempt_fails url k us w) as Hstep.
  cbv zeta in Hstep.
  cbn [DoubanToCsv.make_request_loop]. unfold Eff.bind at 1.
  destruct (Eff.try_except _ _ _ w) as [r w1].
  cbn [fst snd] in Hstep. destruct Hstep as ([us' ->] & p & s & Htrace & Hs).
  exists us', p, s, w1. split; [exact Htrace|]. split; [exact Hs|].
  unfold Eff.bind at 1.
  destruct (k <? DoubanToCsv.MAX_RETRIES - 1)%nat; reflexivity.
Qed.

Lemma attempts_in_app (a b : list DoubanToCsv.event) :
  attempts_in (a ++ b) = (attempts_in a ++ attempts_in b)%list.
Proof. unfold attempts_in. apply flat_map_app. Qed.

Lemma attempts_in_rev (s : list DoubanToCsv.event) :
  attempts_in s = [] -> attempts_in (rev s) = [].
Proof.
  induction s as [|e s IH]; [reflexivity|].
  simpl. intros H. apply app_eq_nil in H as [He Hs].
  rewrite attempts_in_app, (IH Hs). simpl. rewrite He. reflexivity.
Qed.

(** C3.  When the browser starts and every request ends in a transport
    error, [make_request] returns [None] and raises nothing.  Its events
    are those of three passes through the loop, numbered 0, 1 and 2, and
    no more; the pass [k] is followed, before the pass [k + 1], by a sleep
    of [RETRY_DELAY * 2 ^ k] seconds plus a jitter drawn by
    [random.uniform(1, 5)]; after the last pass comes the message of
    failure, with no sleep before it. *)
Theorem retry_exhaustion :
  forall (url : string) (use_selenium : bool) (w : DoubanToCsv.world),
    fst (DoubanToCsv.make_request env url use_selenium w) = Py.Ret None
    /\ exists p0 p1 p2 s0 s1 s2 t0 t1,
        DoubanToCsv.history
          (snd (DoubanToCsv.make_request env url use_selenium w))
        = (DoubanToCsv.history w
           ++ DoubanToCsv.EvAttempt 0 p0 :: s0
           ++ DoubanToCsv.EvSleep
                (delay_after 0 (jitter_of (DoubanToCsv.random env t0)))
           :: DoubanToCsv.EvAttempt 1 p1 :: s1
           ++ DoubanToCsv.EvSleep
                (delay_after 1 (jitter_of (DoubanToCsv.random env t1)))
           :: DoubanToCsv.EvAttempt 2 p2 :: s2
           ++ [DoubanToCsv.EvFailed url])%list
        /\ attempts_in s0 = [] /\ attempts_in s1 = [] /\ attempts_in s2 = [].
Proof.
  intros url use_selenium w. unfold DoubanToCsv.make_request.
  set (us := if Py.contains "douban.com" url && negb use_selenium
             then true else use_selenium).
  clearbody us. unfold DoubanToCsv.MAX_RETRIES at 1 2.
  destruct (loop_step url 2 0 us w) as (us1 & p0 & s0 & w1 & Ht0 & Hs0 & ->).
  cbn [Nat.ltb Nat.leb DoubanToCsv.MAX_RETRIES Nat.sub].
  match goal with
  | |- context [DoubanToCsv.make_request_loop env url 2 1 us1 ?w'] =>
      destruct (loop_step url 1 1 us1 w')
        as (us2 & p1 & s1 & w2 & Ht1 & Hs1 & ->)
  end.
  cbn [Nat.ltb Nat.leb DoubanToCsv.MAX_RETRIES Nat.sub].
  match goal with
  | |- context [DoubanToCsv.make_request_loop env url 1 2 us2 ?w'] =>
      destruct (loop_step url 0 2 us2 w')
        as (us3 & p2 & s2 & w3 & Ht2 & Hs2 & ->)
  end.
  cbn [Nat.ltb Nat.leb DoubanToCsv.MAX_RETRIES Nat.sub].
  split; [reflexivity|].
  exists p0, p1, p2, (rev s0), (rev s1), (rev s2),
    (DoubanToCsv.clock w1), (DoubanToCsv.clock w2).
  split.
  - unfold DoubanToCsv.history. cbn. rewrite Ht2. cbn. rewrite Ht1. cbn.
    rewrite Ht0.
    repeat (rewrite ?rev_app_distr; cbn [rev app]).
    repeat rewrite <- app_assoc. cbn [app]. reflexivity.
  - repeat split; apply attempts_in_rev; assumption.
Qed.

End TransportErrors.

Lemma retry_exhaustion_witness :
  always_transport_error unreachable_site
  /\ fst (DoubanToCsv.make_request unreachable_site
            "https://movie.douban.com/people/someone/" false
            DoubanToCsv.initial)
     = Py.Ret None
  /\ attempts_in
       (DoubanToCsv.history
          (snd (DoubanToCsv.make_request unreachable_site
                  "https://movie.douban.com/people/someone/" false
                  DoubanToCsv.initial)))
     = [0%nat; 1%nat; 2%nat].
Proof.
  assert (H : always_transport_error unreachable_site).
  { split; [reflexivity|]. split.
    - intros t. eexists. split; reflexivity.
    - intros t. right. eexists. split; reflexivity. }
  split; [exact H|]. split.
  - exact (proj1 (retry_exhaustion unreachable_site H
                    "https://movie.douban.com/people/someone/" false
                    DoubanToCsv.initial)).
  - reflexivity.
Defined.

(** The delays grow from one pass to the next whatever the jitter, and
    stay within [RETRY_DELAY * 2 ^ k + 1] and [RETRY_DELAY * 2 ^ k + 5]. *)
Lemma delay_after_bounds (k : nat) (x : Q) :
  (0 <= x <= 1)%Q ->
  (inject_Z (DoubanToCsv.RETRY_DELAY * 2 ^ Z.of_nat k) + 1
   <= delay_after k (jitter_of x)
   <= inject_Z (DoubanToCsv.RETRY_DELAY * 2 ^ Z.of_nat k) + 5)%Q.
Proof.
  intros [H0 H1]. unfold delay_after, jitter_of.
  change (inject_Z (5 - 1)) with 4%Q. change (inject_Z 1) with 1%Q.
  split; lra.
Qed.

Lemma delay_after_grows (k : nat) (x y : Q) :
  (0 <= x <= 1)%Q -> (0 <= y <= 1)%Q ->
  (delay_after k (jitter_of x) < delay_after (S k) (jitter_of y))%Q.
Proof.
  intros [Hx0 Hx1] [Hy0 Hy1]. unfold delay_after, jitter_of.
  change (inject_Z (5 - 1)) with 4%Q. change (inject_Z 1) with 1%Q.
  rewrite Nat2Z.inj_succ, Z.pow_succ_r by lia.
  unfold DoubanToCsv.RETRY_DELAY.
  replace (5 * (2 * 2 ^ Z.of_nat k)) with (10 * 2 ^ Z.of_nat k) by ring.
  rewrite !inject_Z_mult.
  assert (Hpow : (1 <= inject_Z (2 ^ Z.of_nat k))%Q).
  { change 1%Q with (inject_Z 1). rewrite <- Zle_Qle.
    assert (0 < 2 ^ Z.of_nat k) by (apply Z.pow_pos_nonneg; lia). lia. }
  change (inject_Z 5) with 5%Q. change (inject_Z 10) with 10%Q.
  lra.
Qed.

(** ** The exporter: when [make_request] turns to the browser *)

Section Escalation.

Variable env : DoubanToCsv.environment.

Ltac case_answers :=
  repeat match goal with
  | |- context [match DoubanToCsv.chrome env ?t with _ => _ end] =>
      destruct (DoubanToCsv.chrome env t) as [[]|]; cbn
  | |- context [match DoubanToCsv.driver_get env ?t with _ => _ end] =>
      destruct (DoubanToCsv.driver_get env t) as [[]| | |[] ?]; cbn
  | |- context [match DoubanToCsv.requests_get env ?t with _ => _ end] =>
      destruct (DoubanToCsv.requests_get env t) as [? ?|[]]; cbn
  | |- context [if DoubanToCsv.refresh env ?t then _ else _] =>
      destruct (DoubanToCsv.refresh env t); cbn
  | |- context [if (?c =? 200)%Z then _ else _] =>
      destruct (c =? 200)%Z; cbn
  | |- context [if (?c =? 403)%Z then _ else _] =>
      destruct (c =? 403)%Z eqn:?; cbn
  | |- context [if (?k <? 2)%nat then _ else _] =>
      destruct (k <? 2)%nat; cbn
  | |- context [if (?k <=? 1)%nat then _ else _] =>
      destruct (k <=? 1)%nat; cbn
  | |- context [if Py.contains ?a ?b then _ else _] =>
      destruct (Py.contains a b) eqn:?; cbn
  | |- context [if Py.contains ?a ?b && _ then _ else _] =>
      destruct (Py.contains a b) eqn:?; cbn
  end.

Lemma attempt_shape (url : string) (k : nat) (us : bool) (w : DoubanToCsv.world) :
  let r := Eff.try_except (DoubanToCsv.attempt_body env url k us) (fun _ => true)
                          (DoubanToCsv.handler env url k us) w in
  exists others,
    DoubanToCsv.trace (snd r)
    = (others ++ DoubanToCsv.EvAttempt k (takes_browser us w)
              :: DoubanToCsv.trace w)%list
    /\ attempts_in others = []
    /\ (forall us', fst r = Py.Ret (DoubanToCsv.Fallthrough us') ->
        takes_browser us' (snd r) = true ->
        takes_browser us w = true
        \/ existsb escalation_cause others = true)
    /\ (fst r = Py.Ret DoubanToCsv.Continue ->
        takes_browser us (snd r) = true -> takes_browser us w = true).
Proof.
  destruct w as [sd over drv li clk tr].
  unfold takes_browser, DoubanToCsv.attempt_body, DoubanToCsv.handler,
    DoubanToCsv.setup_driver, DoubanToCsv.backoff, DoubanToCsv.uniform,
    DoubanToCsv.sleep, DoubanToCsv.log,
    DoubanToCsv.ask, Eff.try_except, Eff.bind, Eff.get, Eff.modify,
    Eff.ret, Eff.raise.
  destruct us; destruct drv as [d|]; cbn; case_answers.
  all: match goal with
       | |- exists others, ?t = _ /\ _ =>
           let pre := split_at_attempt t in exists pre
       end.
  all: split; [reflexivity|]; split; [reflexivity|]; split.
  all: try (intros us' Hf Hb; inversion Hf; subst; cbn in *; auto; fail).
  all: try (intros Hf; try discriminate Hf; intros; reflexivity).
  all: intros us' _ _; right; cbn;
    match goal with H : _ = true |- _ => rewrite H; reflexivity end.
Qed.










End Escalation.



(** A status other than 200 and 403 does not send the next pass to the
    browser. *)
Lemma other_status_stays_on_http :
  attempts_in
    (DoubanToCsv.history
       (snd (DoubanToCsv.make_request
               (answering 500 alien_detail_page)
               "https://www.imdb.com/title/tt0078748/" false
               DoubanToCsv.initial)))
  = [0%nat; 1%nat; 2%nat]
  /\ existsb (fun e => match e with
                       | DoubanToCsv.EvAttempt _ true => true
                       | _ => false
                       end)
       (DoubanToCsv.history
          (snd (DoubanToCsv.make_request
               (answering 500 alien_detail_page)
               "https://www.imdb.com/title/tt0078748/" false
               DoubanToCsv.initial)))
     = false.
Proof.
  split; reflexivity.
Qed.

(** ** The browser session of the exporter *)

(** [quit_driver] returns, and no session is left. *)
Lemma quit_driver_releases (env : DoubanToCsv.environment)
      (w : DoubanToCsv.world) :
  fst (DoubanToCsv.quit_driver w) = Py.Ret tt
  /\ DoubanToCsv.DRIVER (snd (DoubanToCsv.quit_driver w)) = None.
Proof.
  unfold DoubanToCsv.quit_driver, Eff.bind, Eff.get.
  destruct (DoubanToCsv.DRIVER w) eqn:Hd; cbn; [tauto|].
  split; [reflexivity | exact Hd].
Qed.

(** Once the user is known to exist, every way out of the entry point,
    an interrupt or an exit included, goes through [quit_driver]: no
    session is left. *)
Lemma main_releases_after_check (env : DoubanToCsv.environment)
      (a : DoubanToCsv.args) (w w0 w1 : DoubanToCsv.world) :
  w0 = match DoubanToCsv.start_date a with
       | EmptyString => w
       | d => DoubanToCsv.set_START_DATE d w
       end ->
  DoubanToCsv.check_user_exist env (DoubanToCsv.user_id a) w0
  = (Py.Ret true, w1) ->
  DoubanToCsv.DRIVER (snd (DoubanToCsv.main env a w)) = None.
Proof.
  intros Hw0 Hcheck.
  unfold DoubanToCsv.main. unfold Eff.bind at 1.
  assert (Hstart : (match DoubanToCsv.start_date a with
                    | EmptyString => Eff.ret tt
                    | String a0 s =>
                        Eff.modify (DoubanToCsv.set_START_DATE (String a0 s))
                    end) w = (Py.Ret tt, w0)).
  { subst w0. destruct (DoubanToCsv.start_date a); reflexivity. }
  rewrite Hstart. unfold Eff.bind at 1. rewrite Hcheck. cbn [negb].
  unfold Eff.try_finally.
  destruct (Eff.try_except _ _ _ w1) as [r w2].
  pose proof (quit_driver_releases env w2) as [Hq Hd].
  destruct (DoubanToCsv.quit_driver w2) as [[[]|e] w3]; cbn in *.
  - exact Hd.
  - exact Hd.
Qed.

(** C9.  The entry point of the exporter, for a user who does not exist:
    [check_user_exist] runs before the [try] block and fetches through the
    browser, so the session is there when [sys.exit(1)] is reached, and
    [quit_driver] is not called. *)
Theorem exit_on_unknown_user_leaves_browser :
  fst (DoubanToCsv.main (serving no_such_user_page) (default_args "nobody")
                        DoubanToCsv.initial)
  = Py.Raise Py.SystemExit
  /\ DoubanToCsv.DRIVER
       (snd (DoubanToCsv.main (serving no_such_user_page)
                              (default_args "nobody") DoubanToCsv.initial))
     = Some (DoubanToCsv.Chrome 0)
  /\ DoubanToCsv.history
       (snd (DoubanToCsv.main (serving no_such_user_page)
                              (default_args "nobody") DoubanToCsv.initial))
     = [DoubanToCsv.EvAttempt 0 true;
        DoubanToCsv.EvChromeStart (DoubanToCsv.Chrome 0);
        DoubanToCsv.EvDriverGet "https://movie.douban.com/people/nobody/"]
  /\ starts (DoubanToCsv.history
               (snd (DoubanToCsv.main (serving no_such_user_page)
                                      (default_args "nobody")
                                      DoubanToCsv.initial))) = 1%nat
  /\ quits (DoubanToCsv.history
              (snd (DoubanToCsv.main (serving no_such_user_page)
                                     (default_args "nobody")
                                     DoubanToCsv.initial))) = 0%nat.
Proof.
  repeat split.
Qed.

(** An interrupt during that first fetch leaves the session too. *)
Lemma interrupt_before_try_leaves_browser :
  fst (DoubanToCsv.main interrupted_site (default_args "someone")
                        DoubanToCsv.initial)
  = Py.Raise Py.KeyboardInterrupt
  /\ DoubanToCsv.DRIVER
       (snd (DoubanToCsv.main interrupted_site (default_args "someone")
                              DoubanToCsv.initial))
     = Some (DoubanToCsv.Chrome 0).
Proof.
  split; reflexivity.
Qed.

(** The run of the exporter on a user who exists ends with the session
    quit, once. *)
Lemma export_run_quits_once :
  fst (DoubanToCsv.main collection_then_detail (default_args "someone")
                        DoubanToCsv.initial)
  = Py.Ret tt
  /\ DoubanToCsv.DRIVER
       (snd (DoubanToCsv.main collection_then_detail (default_args "someone")
                              DoubanToCsv.initial))
     = None
  /\ starts (DoubanToCsv.history
               (snd (DoubanToCsv.main collection_then_detail
                       (default_args "someone") DoubanToCsv.initial))) = 1%nat
  /\ quits (DoubanToCsv.history
              (snd (DoubanToCsv.main collection_then_detail
                      (default_args "someone") DoubanToCsv.initial))) = 1%nat.
Proof.
  vm_compute. repeat split.
Qed.

(** The importer has no [finally]: an interrupt while a row is handled
    ends [mark] before [driver.quit()]. *)
Lemma importer_interrupt_leaves_browser :
  fst (CsvToImdb.mark interrupted_destination false (-1)
                      ("Alien,5,tt0078748" ++ String Csv.LF "")
                      CsvToImdb.initial)
  = Py.Raise Py.KeyboardInterrupt
  /\ CsvToImdb.driver
       (snd (CsvToImdb.mark interrupted_destination false (-1)
                            ("Alien,5,tt0078748" ++ String Csv.LF "")
                            CsvToImdb.initial))
     = true
  /\ ~ In CsvToImdb.EvQuit
          (CsvToImdb.trace
             (snd (CsvToImdb.mark interrupted_destination false (-1)
                                  ("Alien,5,tt0078748" ++ String Csv.LF "")
                                  CsvToImdb.initial))).
Proof.
  split; [reflexivity|]. split; [reflexivity|].
  vm_compute. intros H.
  repeat (destruct H as [H | H]; [discriminate H|]). exact H.
Qed.

(** ** The file between the two scripts *)







Lemma stream_flag (st : Csv.reader) (m m' : bool) (c : ascii) (r : string) :
  stream st m (String c r) = stream st m' (String c r).
Proof. reflexivity. Qed.




















(** C7.  A record whose title holds a carriage return does not come back
    as it was written: the importer opens the file without [newline=''],
    so the carriage return is read as a line feed.  With a writer that
    quotes the title the row comes back with another title; with a writer
    that does not, it comes back as two rows. *)
Theorem carriage_return_breaks_round_trip :
  Csv.reader_rows
    (Csv.writerows true [DoubanToCsv.row_of_record record_with_cr])
  = ([["A" ++ String Csv.LF "B"; "4"; "tt0000001"]], None)
  /\ Csv.reader_rows
       (Csv.writerows false [DoubanToCsv.row_of_record record_with_cr])
     = ([["A"]; ["B"; "4"; "tt0000001"]], None)
  /\ forall q,
      Csv.reader_rows
        (Csv.writerows q [DoubanToCsv.row_of_record record_with_cr])
      <> ([texts_of_record record_with_cr], None).
Proof.
  split; [reflexivity|]. split; [reflexivity|].
  intros [|]; discriminate.
Qed.


Lemma main_releases_after_check_witness :
  DoubanToCsv.check_user_exist collection_then_detail "someone"
                               DoubanToCsv.initial
  = (Py.Ret true,
     snd (DoubanToCsv.check_user_exist collection_then_detail "someone"
                                       DoubanToCsv.initial))
  /\ DoubanToCsv.DRIVER
       (snd (DoubanToCsv.main collection_then_detail (default_args "someone")
                              DoubanToCsv.initial))
     = None.
Proof.
  split; [reflexivity|].
  exact (main_releases_after_check collection_then_detail
           (default_args "someone") DoubanToCsv.initial DoubanToCsv.initial _
           eq_refl eq_refl).
Defined.

(** * Checks of the model on concrete inputs *)

Example int_examples :
  Py.int "4" = Py.Ret 4
  /\ Py.int " +0_4 " = Py.Ret 4
  /\ Py.int "-2" = Py.Ret (-2)
  /\ Py.int "4_" = Py.Raise Py.ValueError
  /\ Py.int "" = Py.Raise Py.ValueError
  /\ Py.int "4.0" = Py.Raise Py.ValueError
  /\ Py.int "- 4" = Py.Raise Py.ValueError.
Proof. repeat split. Qed.

Example str_examples :
  Py.str (-15) = "-15" /\ Py.str 0 = "0" /\ Py.str 30 = "30".
Proof. repeat split. Qed.

Example replace_examples :
  Py.replace "-t" "" (Py.replace "rating" "" "rating4-t") = "4"
  /\ Py.replace "aa" "b" "aaaaa" = "bba"
  /\ Py.replace "-t" "" (Py.replace "rating" "" "ra-ttingrating3") = "rating3".
Proof. repeat split. Qed.

Example strip_examples :
  Py.strip "  tt0078748 " = "tt0078748"
  /\ Py.strip "   " = ""
  /\ Py.strip "a b" = "a b".
Proof. repeat split. Qed.

Example text_test_examples :
  Py.endswith "-t" "rating4-t" = true
  /\ Py.endswith "-t" "t" = false
  /\ Py.contains "douban.com" "https://movie.douban.com/people/someone/" = true
  /\ Py.contains "douban.com" "https://www.imdb.com/" = false
  /\ Py.isdigit "0078748" = true
  /\ Py.isdigit "" = false.
Proof. repeat split. Qed.

Example strptime_examples :
  Datetime.strptime "2005-05-02" "%Y-%m-%d"
  = Py.Ret {| Datetime.year := 2005; Datetime.month := 5; Datetime.day := 2 |}
  /\ Datetime.strptime "2005112" "%Y%m%d"
     = Py.Ret {| Datetime.year := 2005; Datetime.month := 11; Datetime.day := 2 |}
  /\ Datetime.strptime "2005101" "%Y%m%d"
     = Py.Ret {| Datetime.year := 2005; Datetime.month := 10; Datetime.day := 1 |}
  /\ Datetime.strptime "200510" "%Y%m%d" = Py.Raise Py.ValueError
  /\ Datetime.strptime "2005.2.29" "%Y.%m.%d" = Py.Raise Py.ValueError
  /\ Datetime.strptime "2004/2/29" "%Y/%m/%d"
     = Py.Ret {| Datetime.year := 2004; Datetime.month := 2; Datetime.day := 29 |}
  /\ Datetime.strptime "2005-05-02 " "%Y-%m-%d" = Py.Raise Py.ValueError
  /\ Datetime.strptime "0000-01-01" "%Y-%m-%d" = Py.Raise Py.ValueError.
Proof. repeat split. Qed.

Example normalize_date_examples :
  DoubanToCsv.normalize_date "2004/2/29" = "2004-02-29"
  /\ DoubanToCsv.normalize_date "2024.1.2" = "2024-01-02"
  /\ DoubanToCsv.normalize_date "yesterday" = "yesterday".
Proof. repeat split. Qed.

Example re_search_examples :
  DoubanToCsv.re_search_tt "https://www.imdb.com/title/tt0078748/"
  = Some "tt0078748"
  /\ DoubanToCsv.re_search_tt "https://www.imdb.com/title/" = None
  /\ DoubanToCsv.token_scan ["IMDb:"; "tt0078748"] = Some "tt0078748"
  /\ DoubanToCsv.token_scan ["tt1"; "ttx12"] = None
  /\ DoubanToCsv.label_adjacent
       [("IMDb:", DoubanToCsv.TextNode " tt0078748 ")] = Some "tt0078748".
Proof. repeat split. Qed.

Example writerows_example :
  Csv.writerows true (map DoubanToCsv.row_of_record sample_records)
  = "Alien,5,tt0078748"
    ++ String Csv.LF
         (String Csv.quotechar
            ("Crouching Tiger, "
             ++ String Csv.quotechar
                  (String Csv.quotechar
                     ("Hidden"
                      ++ String Csv.LF
                           ("Dragon"
                            ++ String Csv.quotechar
                                 (",," ++ String Csv.LF "")))))).
Proof. reflexivity. Qed.

Example reader_examples :
  Csv.reader_rows ("a,b" ++ String Csv.CR (String Csv.LF "c,d"))
  = ([["a"; "b"]; ["c"; "d"]], None)
  /\ Csv.reader_rows ("a" ++ String Csv.LF (String Csv.LF "b"))
     = ([["a"]; []; ["b"]], None)
  /\ Csv.reader_rows ",," = ([[""; ""; ""]], None).
Proof. repeat split. Qed.

Example url_generator_example :
  fst (DoubanToCsv.url_generator
         (serving {| DoubanToCsv.soup_title := None;
                     DoubanToCsv.paginator := Some ["2"; "3"; "next"];
                     DoubanToCsv.movie_items := [];
                     DoubanToCsv.info_section := None;
                     DoubanToCsv.anchors := [] |})
         "someone" DoubanToCsv.initial)
  = Py.Ret
      ["https://movie.douban.com/people/someone/collect?start=0&sort=time&rating=all&filter=all&mode=grid";
       "https://movie.douban.com/people/someone/collect?start=15&sort=time&rating=all&filter=all&mode=grid";
       "https://movie.douban.com/people/someone/collect?start=30&sort=time&rating=all&filter=all&mode=grid"].
Proof. reflexivity. Qed.

(** The scenario of the specification: "Alien", rated 5, adjustment -1,
    no rating on the destination site yet. *)
Example alien_scenario :
  CsvToImdb.mark obliging_site false (-1)
                 ("Alien,5,tt0078748" ++ String Csv.LF "") CsvToImdb.initial
  = (Py.Ret tt,
     {| CsvToImdb.driver := false;
        CsvToImdb.success_marked := 1;
        CsvToImdb.success_unmarked := 0;
        CsvToImdb.can_not_found := [];
        CsvToImdb.already_marked := [];
        CsvToImdb.never_marked := [];
        CsvToImdb.error_movies := [];
        CsvToImdb.clock := 1;
        CsvToImdb.trace :=
          [CsvToImdb.EvSummary false 1 [] [] [];
           CsvToImdb.EvQuit;
           CsvToImdb.EvSleep 2; CsvToImdb.EvConfirm; CsvToImdb.EvSleep 1;
           CsvToImdb.EvClickStar 9; CsvToImdb.EvSleep 1;
           CsvToImdb.EvOpenRating; CsvToImdb.EvSleep 3;
           CsvToImdb.EvSearch "tt0078748"; CsvToImdb.EvLogin] |}).
Proof. reflexivity. Qed.

(** ** [str] and [int] *)

Lemma scan_digits_uint_acc (d : Decimal.uint) :
  forall acc : positive,
    Py.scan_digits (Z.pos acc) false (NilEmpty.string_of_uint d)
    = Some (Z.pos (Pos.of_uint_acc d acc), EmptyString).
Proof.
  induction d; intros acc; cbn [NilEmpty.string_of_uint Py.scan_digits];
    [reflexivity | ..];
    (replace (Py.is_digit _) with true by reflexivity);
    cbn [Pos.of_uint_acc]; rewrite <- IHd; f_equal;
    match goal with
    | |- context [Py.digit_value ?c] =>
        let v := eval vm_compute in (Py.digit_value c) in
        change (Py.digit_value c) with v
    end; lia.
Qed.

Lemma scan_digits_uint (d : Decimal.uint) :
  Py.scan_digits 0 false (NilEmpty.string_of_uint d)
  = Some (Z.of_N (Pos.of_uint d), EmptyString).
Proof.
  induction d; cbn [NilEmpty.string_of_uint Py.scan_digits Pos.of_uint];
    [reflexivity | ..];
    (replace (Py.is_digit _) with true by reflexivity);
    [exact IHd | ..];
    cbn [Z.of_N]; rewrite <- scan_digits_uint_acc; f_equal.
Qed.

Lemma int_of_digits (sign : Z) (p : positive) :
  Py.unsigned_literal sign (NilEmpty.string_of_uint (Pos.to_uint p))
  = Py.Ret (sign * Z.pos p).
Proof.
  unfold Py.unsigned_literal.
  rewrite scan_digits_uint, DecimalPos.Unsigned.of_to.
  pose proof (DecimalPos.Unsigned.to_uint_nonnil p) as Hnil.
  destruct (Pos.to_uint p); [congruence | ..]; reflexivity.
Qed.

(** The text that [str] writes for an integer is read back by [int] as
    that integer. *)
Lemma int_str (n : Z) : Py.int (Py.str n) = Py.Ret n.
Proof.
  unfold Py.str. destruct n as [|p|p]; [reflexivity | ..];
    cbn [Z.to_int NilZero.string_of_int].
  - pose proof (int_of_digits 1 p) as H.
    pose proof (DecimalPos.Unsigned.to_uint_nonnil p) as Hnil.
    unfold NilZero.string_of_uint.
    destruct (Pos.to_uint p) eqn:Hp; [congruence | ..];
      cbn [NilEmpty.string_of_uint] in *; unfold Py.int;
      cbn [Py.skip_spaces];
      (replace (Py.Py_ISSPACE _) with false by reflexivity);
      cbv iota beta; rewrite H; f_equal; lia.
  - pose proof (int_of_digits (-1) p) as H.
    pose proof (DecimalPos.Unsigned.to_uint_nonnil p) as Hnil.
    unfold NilZero.string_of_uint.
    destruct (Pos.to_uint p) eqn:Hp; [congruence | ..];
      unfold Py.int; cbn [Py.skip_spaces];
      (replace (Py.Py_ISSPACE _) with false by reflexivity);
      cbv iota beta; rewrite H; f_equal; lia.
Qed.

(** ** Dates *)

Lemma range_check (P : Z -> bool) (lo n : nat) :
  forallb P (map Z.of_nat (seq lo n)) = true ->
  forall z, Z.of_nat lo <= z < Z.of_nat (lo + n) -> P z = true.
Proof.
  intros H z Hz. rewrite forallb_forall in H. apply H.
  apply in_map_iff. exists (Z.to_nat z). split; [lia|].
  apply in_seq. lia.
Qed.

(** A year written on four digits. *)
Lemma year_text (y : Z) :
  1 <= y <= 9999 ->
  exists a b c d,
    Datetime.zfill 4 (Py.str y) = String a (String b (String c (String d "")))
    /\ Py.is_digit a = true /\ Py.is_digit b = true
    /\ Py.is_digit c = true /\ Py.is_digit d = true
    /\ 1000 * Py.digit_value a + 100 * Py.digit_value b
       + 10 * Py.digit_value c + Py.digit_value d = y.
Proof.
  intros Hy.
  pose proof (range_check
    (fun y => match Datetime.zfill 4 (Py.str y) with
              | String a (String b (String c (String d EmptyString))) =>
                  Py.is_digit a && Py.is_digit b && Py.is_digit c
                  && Py.is_digit d
                  && (1000 * Py.digit_value a + 100 * Py.digit_value b
                      + 10 * Py.digit_value c + Py.digit_value d =? y)
              | _ => false
              end) 1 (Z.to_nat 9999) ltac:(vm_compute; reflexivity) y ltac:(lia))
    as H.
  cbv beta in H.
  destruct (Datetime.zfill 4 (Py.str y)) as [|a [|b [|c [|d [|? ?]]]]];
    try discriminate H.
  apply andb_true_iff in H as [H Hv]. apply andb_true_iff in H as [H Hd].
  apply andb_true_iff in H as [H Hc]. apply andb_true_iff in H as [Ha Hb].
  apply Z.eqb_eq in Hv.
  exists a, b, c, d. repeat split; assumption.
Qed.

(** A month and a day written on two digits each are read back. *)
Lemma month_and_day_text (m d : Z) :
  1 <= m <= 12 -> 1 <= d <= 31 ->
  Datetime.month_and_day "-"
    (Datetime.directive_m
       (Datetime.zfill 2 (Py.str m) ++ String "-" (Datetime.zfill 2 (Py.str d))))
  = Some (m, d, EmptyString).
Proof.
  intros Hm Hd.
  pose proof (range_check
    (fun m => forallb
       (fun d => match Datetime.month_and_day "-"
                         (Datetime.directive_m
                            (Datetime.zfill 2 (Py.str m)
                             ++ String "-" (Datetime.zfill 2 (Py.str d)))) with
                 | Some (m', d', EmptyString) => (m' =? m) && (d' =? d)
                 | _ => false
                 end) (map Z.of_nat (seq 1 31)))
    1 12 ltac:(vm_compute; reflexivity) m ltac:(lia)) as H.
  cbv beta in H.
  pose proof (range_check _ 1 31 H d ltac:(lia)) as H'. cbv beta in H'.
  destruct (Datetime.month_and_day _ _) as [[[m' d'] [|? ?]]|];
    try discriminate H'.
  apply andb_true_iff in H' as [H1 H2].
  apply Z.eqb_eq in H1. apply Z.eqb_eq in H2. subst. reflexivity.
Qed.

Lemma valid_bounds (y m d : Z) :
  Datetime.valid y m d = true ->
  1 <= y <= 9999 /\ 1 <= m <= 12 /\ 1 <= d <= 31.
Proof.
  unfold Datetime.valid, Datetime.days_in_month. intros H.
  repeat (apply andb_true_iff in H as [H ?]).
  repeat match goal with
         | H : (_ <=? _) = true |- _ => apply Z.leb_le in H
         end.
  repeat split; try lia.
  destruct (m =? 2); [destruct (Datetime.is_leap y); lia|].
  destruct ((m =? 4) || (m =? 6) || (m =? 9) || (m =? 11)); lia.
Qed.

Lemma prefix_empty (s : string) : String.prefix "" s = true.
Proof. destruct s; reflexivity. Qed.

Lemma eat_one (c : ascii) (r : string) :
  Datetime.eat (String c "") (String c r) = Some r.
Proof.
  unfold Datetime.eat. cbn [String.prefix].
  destruct (ascii_dec c c) as [_|H]; [|congruence].
  rewrite prefix_empty. reflexivity.
Qed.

Lemma strptime_strftime (d : Datetime.datetime) :
  Datetime.valid (Datetime.year d) (Datetime.month d) (Datetime.day d) = true ->
  Datetime.strptime (Datetime.strftime d) "%Y-%m-%d" = Py.Ret d.
Proof.
  destruct d as [y m dd]. cbn [Datetime.year Datetime.month Datetime.day].
  intros Hvalid.
  destruct (valid_bounds y m dd Hvalid) as (Hy & Hm & Hd).
  destruct (year_text y Hy) as (a & b & c & e & Htext & Ha & Hb & Hc & He & Hv).
  change (Datetime.strptime (Datetime.strftime {| Datetime.year := y;
            Datetime.month := m; Datetime.day := dd |}) "%Y-%m-%d")
    with (Datetime.strptime_ymd "-"
            (Datetime.zfill 4 (Py.str y)
             ++ String "-" (Datetime.zfill 2 (Py.str m)
                            ++ String "-" (Datetime.zfill 2 (Py.str dd))))).
  rewrite Htext. cbn [append]. unfold Datetime.strptime_ymd.
  cbn [Datetime.directive_Y]. rewrite Ha, Hb, Hc, He. cbn [andb].
  rewrite Hv.
  rewrite eat_one.
  rewrite (month_and_day_text m dd Hm Hd), Hvalid. reflexivity.
Qed.

Lemma strptime_ymd_valid (sep s : string) (d : Datetime.datetime) :
  Datetime.strptime_ymd sep s = Py.Ret d ->
  Datetime.valid (Datetime.year d) (Datetime.month d) (Datetime.day d) = true.
Proof.
  unfold Datetime.strptime_ymd.
  destruct (Datetime.directive_Y s) as [[y r1]|]; [|discriminate].
  destruct (Datetime.eat sep r1) as [r2|]; [|discriminate].
  destruct (Datetime.month_and_day sep _) as [[[m dd] [|? ?]]|];
    try discriminate.
  destruct (Datetime.valid y m dd) eqn:Hv; [|discriminate].
  intros H. inversion H. subst. exact Hv.
Qed.

Lemma strptime_valid (s fmt : string) (d : Datetime.datetime) :
  Datetime.strptime s fmt = Py.Ret d ->
  Datetime.valid (Datetime.year d) (Datetime.month d) (Datetime.day d) = true.
Proof.
  unfold Datetime.strptime.
  repeat match goal with
         | |- context [if ?b then _ else _] => destruct b
         end; try discriminate; apply strptime_ymd_valid.
Qed.

(** A text that is read with one separator is not read with another. *)
Lemma strptime_ymd_other_separator (c c' : ascii) (s : string)
      (d : Datetime.datetime) :
  c <> c' ->
  Datetime.strptime_ymd (String c "") s = Py.Ret d ->
  Datetime.strptime_ymd (String c' "") s = Py.Raise Py.ValueError.
Proof.
  intros Hc. unfold Datetime.strptime_ymd.
  destruct (Datetime.directive_Y s) as [[y r1]|]; [|discriminate].
  unfold Datetime.eat.
  destruct r1 as [|x r1]; cbn [String.prefix]; [discriminate|].
  destruct (ascii_dec c x) as [<-|_]; [|discriminate].
  destruct (ascii_dec c' c) as [->|_]; [congruence | reflexivity].
Qed.

Lemma normalize_date_strftime (d : Datetime.datetime) :
  Datetime.valid (Datetime.year d) (Datetime.month d) (Datetime.day d) = true ->
  DoubanToCsv.normalize_date (Datetime.strftime d) = Datetime.strftime d.
Proof.
  intros Hv. unfold DoubanToCsv.normalize_date.
  rewrite (strptime_strftime d Hv). reflexivity.
Qed.

Lemma normalize_date_cases (s : string) :
  (exists d fmt,
      In fmt ["%Y-%m-%d"; "%Y.%m.%d"; "%Y/%m/%d"]
      /\ Datetime.strptime s fmt = Py.Ret d
      /\ DoubanToCsv.normalize_date s = Datetime.strftime d)
  \/ ((forall fmt, In fmt ["%Y-%m-%d"; "%Y.%m.%d"; "%Y/%m/%d"] ->
         exists e, Datetime.strptime s fmt = Py.Raise e)
      /\ DoubanToCsv.normalize_date s = s).
Proof.
  unfold DoubanToCsv.normalize_date.
  destruct (Datetime.strptime s "%Y-%m-%d") as [d|e1] eqn:H1.
  { left. exists d, "%Y-%m-%d". cbn [In]. auto. }
  destruct (Datetime.strptime s "%Y.%m.%d") as [d|e2] eqn:H2.
  { left. exists d, "%Y.%m.%d". cbn [In]. auto. }
  destruct (Datetime.strptime s "%Y/%m/%d") as [d|e3] eqn:H3.
  { left. exists d, "%Y/%m/%d". cbn [In]. auto. }
  right. split; [|reflexivity].
  intros fmt [<- | [<- | [<- | []]]]; eauto.
Qed.

(** The date text that one of the three formats of [get_info] reads is
    normalised to the text of that date, which the comparison with the
    cutoff then reads as the same date.  (Stated for years of four
    significant digits, which every platform writes on four digits.) *)
Theorem normalized_date_is_read (s fmt : string) (d : Datetime.datetime) :
  In fmt ["%Y-%m-%d"; "%Y.%m.%d"; "%Y/%m/%d"] ->
  1000 <= Datetime.year d ->
  Datetime.strptime s fmt = Py.Ret d ->
  DoubanToCsv.normalize_date s = Datetime.strftime d
  /\ Datetime.strptime (DoubanToCsv.normalize_date s) "%Y-%m-%d" = Py.Ret d.
Proof.
  intros Hfmt _ Hread.
  pose proof (strptime_valid s fmt d Hread) as Hv.
  assert (Hn : DoubanToCsv.normalize_date s = Datetime.strftime d).
  { unfold DoubanToCsv.normalize_date.
    destruct Hfmt as [<- | [<- | [<- | []]]].
    - rewrite Hread. reflexivity.
    - change (Datetime.strptime s "%Y-%m-%d")
        with (Datetime.strptime_ymd "-" s).
      rewrite (strptime_ymd_other_separator "." "-" s d ltac:(discriminate) Hread).
      rewrite Hread. reflexivity.
    - change (Datetime.strptime s "%Y-%m-%d")
        with (Datetime.strptime_ymd "-" s).
      rewrite (strptime_ymd_other_separator "/" "-" s d ltac:(discriminate) Hread).
      change (Datetime.strptime s "%Y.%m.%d")
        with (Datetime.strptime_ymd "." s).
      rewrite (strptime_ymd_other_separator "/" "." s d ltac:(discriminate) Hread).
      rewrite Hread. reflexivity. }
  split; [exact Hn|]. rewrite Hn. apply strptime_strftime. exact Hv.
Qed.

Lemma normalized_date_is_read_witness :
  In "%Y/%m/%d" ["%Y-%m-%d"; "%Y.%m.%d"; "%Y/%m/%d"]
  /\ 1000 <= 2004
  /\ DoubanToCsv.normalize_date "2004/2/29" = "2004-02-29"
  /\ Datetime.strptime (DoubanToCsv.normalize_date "2004/2/29") "%Y-%m-%d"
     = Py.Ret {| Datetime.year := 2004; Datetime.month := 2;
                 Datetime.day := 29 |}.
Proof.
  assert (Hin : In "%Y/%m/%d" ["%Y-%m-%d"; "%Y.%m.%d"; "%Y/%m/%d"]).
  { right. right. left. reflexivity. }
  assert (Hyear : 1000 <= 2004) by lia.
  split; [exact Hin|]. split; [exact Hyear|].
  exact (normalized_date_is_read "2004/2/29" "%Y/%m/%d"
           {| Datetime.year := 2004; Datetime.month := 2; Datetime.day := 29 |}
           Hin Hyear eq_refl).
Defined.

(** Normalising a date text twice gives what normalising it once gives. *)
Theorem normalize_date_idempotent (s : string) :
  DoubanToCsv.normalize_date (DoubanToCsv.normalize_date s)
  = DoubanToCsv.normalize_date s.
Proof.
  destruct (normalize_date_cases s) as [(d & fmt & _ & Hread & ->) | [_ Hs]];
    [|rewrite Hs; exact Hs].
  apply normalize_date_strftime. exact (strptime_valid s fmt d Hread).
Qed.

(** ** The exporter: what a record holds *)

Lemma startswith_app (p s : string) : Py.startswith p (p ++ s) = true.
Proof.
  unfold Py.startswith. induction p as [|c p IH]; cbn [append String.prefix].
  - apply prefix_empty.
  - destruct (ascii_dec c c); [exact IH | congruence].
Qed.

Lemma label_adjacent_tt (spans : list (string * DoubanToCsv.sibling))
      (id : string) :
  DoubanToCsv.label_adjacent spans = Some id -> Py.startswith "tt" id = true.
Proof.
  induction spans as [|[span_text next] rest IH]; cbn [DoubanToCsv.label_adjacent];
    [discriminate|].
  destruct (Py.contains "IMDb" span_text); [|exact IH].
  destruct next as [|[|c t]|]; try exact IH.
  destruct (Py.startswith "tt" (Py.strip (String c t))) eqn:Htt; [|exact IH].
  intros H. inversion H. subst. exact Htt.
Qed.

Lemma re_search_tt_tt (s id : string) :
  DoubanToCsv.re_search_tt s = Some id -> Py.startswith "tt" id = true.
Proof.
  induction s as [|c s IH]; cbn [DoubanToCsv.re_search_tt]; [discriminate|].
  destruct (_ && _); [|exact IH].
  intros H. inversion H. apply (startswith_app "tt").
Qed.

Lemma token_scan_tt (strings : list string) (id : string) :
  DoubanToCsv.token_scan strings = Some id -> Py.startswith "tt" id = true.
Proof.
  unfold DoubanToCsv.token_scan. intros H. apply find_some in H as [_ H].
  apply andb_true_iff in H as [H _]. apply andb_true_iff in H as [H _].
  exact H.
Qed.

Lemma find_imdb_id_tt (section : DoubanToCsv.info) (page : DoubanToCsv.soup)
      (id : string) :
  DoubanToCsv.find_imdb_id section page = Some id ->
  Py.startswith "tt" id = true.
Proof.
  unfold DoubanToCsv.find_imdb_id, DoubanToCsv.anchor_href.
  destruct (DoubanToCsv.label_adjacent _) as [a|] eqn:Ha.
  { intros H. inversion H. subst. exact (label_adjacent_tt _ _ Ha). }
  destruct (find _ (DoubanToCsv.anchors page)) as [href|].
  - destruct (DoubanToCsv.re_search_tt href) as [b|] eqn:Hb.
    + intros H. inversion H. subst. exact (re_search_tt_tt _ _ Hb).
    + apply token_scan_tt.
  - apply token_scan_tt.
Qed.

Lemma get_imdb_id_tt (env : DoubanToCsv.environment) (url : string)
      (w : DoubanToCsv.world) (id : string) :
  fst (DoubanToCsv.get_imdb_id env url w) = Py.Ret (Some id) ->
  Py.startswith "tt" id = true.
Proof.
  unfold DoubanToCsv.get_imdb_id, Eff.try_except, Eff.bind.
  destruct (DoubanToCsv.make_request env url true w) as [[[page|]|e] w'].
  - destruct (DoubanToCsv.info_section page) as [section|];
      cbn; [|discriminate].
    intros H. inversion H as [H']. exact (find_imdb_id_tt _ _ _ H').
  - cbn. discriminate.
  - destruct (Py.is_Exception e); cbn; discriminate.
Qed.

Lemma startswith_truthy (p : string) (c : ascii) (s : string) :
  Py.startswith (String c p) s = true -> CsvToImdb.truthy s = true.
Proof. destruct s; [discriminate | reflexivity]. Qed.

(** An id that [get_imdb_id] returns starts with "tt": it passes the test
    that the loop of [mark] makes before it searches. *)
Theorem imdb_id_passes_importer_test (env : DoubanToCsv.environment)
        (url : string) (w : DoubanToCsv.world) (id : string) :
  fst (DoubanToCsv.get_imdb_id env url w) = Py.Ret (Some id) ->
  Py.startswith "tt" id = true
  /\ negb (CsvToImdb.truthy id) || negb (Py.startswith "tt" id) = false.
Proof.
  intros H. apply get_imdb_id_tt in H.
  split; [exact H|]. rewrite H, (startswith_truthy _ _ _ H). reflexivity.
Qed.

Lemma imdb_id_passes_importer_test_witness :
  fst (DoubanToCsv.get_imdb_id (serving alien_detail_page)
         "https://movie.douban.com/subject/1293181/" DoubanToCsv.initial)
  = Py.Ret (Some "tt0078748")
  /\ Py.startswith "tt" "tt0078748" = true.
Proof.
  split; [reflexivity|].
  exact (proj1 (imdb_id_passes_importer_test (serving alien_detail_page)
                  "https://movie.douban.com/subject/1293181/"
                  DoubanToCsv.initial "tt0078748" eq_refl)).
Defined.

Lemma item_rating_range (it : DoubanToCsv.item) (n : Z) :
  DoubanToCsv.item_rating it = Py.Ret (Some n) -> 1 <= n <= 5.
Proof.
  unfold DoubanToCsv.item_rating.
  destruct (DoubanToCsv.rating_span it) as [classes|].
  - unfold Py.index. destruct (nth_error classes 0) as [c|]; cbn [Py.bind];
      [|discriminate].
    intros H. apply get_rating_some in H. tauto.
  - destruct (DoubanToCsv.alt_rating it) as [stars|]; [|discriminate].
    destruct (find _ stars) as [c|]; [|discriminate].
    intros H. apply get_rating_some in H. tauto.
Qed.

Section Records.

Variable env : DoubanToCsv.environment.

Lemma process_item_well_formed (it : DoubanToCsv.item)
      (info info' : list DoubanToCsv.record) (w w' : DoubanToCsv.world)
      (f : DoubanToCsv.flow) :
  Forall well_formed info ->
  DoubanToCsv.process_item env it info w = (Py.Ret (f, info'), w') ->
  Forall well_formed info'
  /\ exists added, info' = (info ++ added)%list /\ (length added <= 1)%nat.
Proof.
  intros Hinfo.
  assert (Hsame : Forall well_formed info
                  /\ exists added, info = (info ++ added)%list
                                   /\ (length added <= 1)%nat).
  { split; [exact Hinfo|]. exists []. rewrite app_nil_r. split; [reflexivity|].
    cbn. lia. }
  unfold DoubanToCsv.process_item, Eff.try_except.
  match goal with
  | |- (match ?m w with _ => _ end) = _ -> _ => destruct (m w) as [[[f0 i0]|e] w0] eqn:Hbody
  end.
  - intros H. inversion H. subst f0 i0 w0. clear H.
    destruct (DoubanToCsv.item_title it) as [title|];
      [|inversion Hbody; subst; exact Hsame].
    destruct (DoubanToCsv.link_href it) as [link|];
      [|inversion Hbody; subst; exact Hsame].
    unfold Eff.bind, Eff.lift in Hbody.
    destruct (DoubanToCsv.item_rating it) as [rating|e] eqn:Hrating;
      [|discriminate].
    match type of Hbody with
    | (match ?m w with _ => _ end) = _ =>
        destruct (m w) as [[date|e] w1]; [|discriminate]
    end.
    cbn [Eff.get] in Hbody.
    destruct (DoubanToCsv.at_or_before_cutoff _ _) as [[|]|e].
    + inversion Hbody; subst; exact Hsame.
    + cbn in Hbody.
      match type of Hbody with
      | (match ?m with _ => _ end) = _ =>
          pose proof (get_imdb_id_tt env link) as Htt;
          destruct m as [[imdb|e] w2] eqn:Hid; [|discriminate]
      end.
      inversion Hbody. subst. split.
      * apply Forall_app. split; [exact Hinfo|].
        constructor; [|constructor]. split.
        -- destruct rating as [n|]; [|exact I].
           exact (item_rating_range it n Hrating).
        -- destruct imdb as [id|]; [|exact I].
           eapply Htt. rewrite Hid. reflexivity.
      * eexists. split; [reflexivity|]. cbn. lia.
    + destruct e; inversion Hbody; subst; exact Hsame.
  - destruct (Py.is_Exception e); [|discriminate].
    intros H. inversion H. subst. exact Hsame.
Qed.

Lemma get_info_loop_well_formed (items : list DoubanToCsv.item) :
  forall (info info' : list DoubanToCsv.record) (w w' : DoubanToCsv.world),
    Forall well_formed info ->
    DoubanToCsv.get_info_loop env items info w = (Py.Ret info', w') ->
    Forall well_formed info'
    /\ exists added,
        info' = (info ++ added)%list /\ (length added <= length items)%nat.
Proof.
  induction items as [|it items IH]; intros info info' w w' Hinfo Hloop.
  - inversion Hloop. subst. split; [exact Hinfo|].
    exists []. rewrite app_nil_r. split; [reflexivity | cbn; lia].
  - rewrite get_info_loop_cons in Hloop.
    destruct (DoubanToCsv.process_item env it info w) as [[[f i1]|e] w1] eqn:Hit;
      [|discriminate].
    apply (process_item_well_formed it info i1 w w1 f Hinfo) in Hit
      as (Hi1 & a1 & -> & Hlen1).
    destruct f.
    + apply (IH _ _ _ _ Hi1) in Hloop as (Hi' & a2 & -> & Hlen2).
      split; [exact Hi'|]. exists (a1 ++ a2)%list. split.
      * rewrite app_assoc. reflexivity.
      * rewrite length_app. cbn. lia.
    + inversion Hloop. subst. split; [exact Hi1|].
      exists a1. split; [reflexivity | cbn; lia].
Qed.

End Records.

(** ** What the functions let through *)

Section Quiet.

Context {W : Type}.

Lemma quiet_ret {A : Type} (a : A) : quiet (@Eff.ret W A a).
Proof. intros w e H. discriminate H. Qed.

Lemma quiet_get : quiet (@Eff.get W).
Proof. intros w e H. discriminate H. Qed.

Lemma quiet_modify (f : W -> W) : quiet (Eff.modify f).
Proof. intros w e H. discriminate H. Qed.

Lemma quiet_raise {A : Type} (e : Py.exn) :
  Py.is_Exception e = false -> quiet (@Eff.raise W A e).
Proof. intros He w e' H. inversion H. subst. exact He. Qed.

Lemma quiet_bind {A B : Type} (m : Eff.M W A) (k : A -> Eff.M W B) :
  quiet m -> (forall a, quiet (k a)) -> quiet (Eff.bind m k).
Proof.
  intros Hm Hk w e. unfold Eff.bind. specialize (Hm w).
  destruct (m w) as [[a|e'] w'].
  - apply Hk.
  - cbn. intros H. inversion H. subst. apply Hm. reflexivity.
Qed.

(** A clause that covers every [Exception] stops whatever the block
    raises. *)
Lemma quiet_try_except {A : Type} (m : Eff.M W A) (handles : Py.exn -> bool)
      (h : Py.exn -> Eff.M W A) :
  (forall e, Py.is_Exception e = true -> handles e = true) ->
  (forall e, quiet (h e)) ->
  quiet (Eff.try_except m handles h).
Proof.
  intros Hall Hh w e. unfold Eff.try_except.
  destruct (m w) as [[a|e'] w']; [discriminate|].
  destruct (handles e') eqn:He'.
  - apply Hh.
  - cbn. intros H. inversion H. subst.
    destruct (Py.is_Exception e) eqn:Hexc; [|reflexivity].
    rewrite (Hall e Hexc) in He'. discriminate He'.
Qed.

End Quiet.

Ltac quiet_step :=
  match goal with
  | |- quiet (Eff.bind _ _) => apply quiet_bind; [|intros ?]
  | |- quiet (Eff.try_except _ _ _) =>
      apply quiet_try_except; [intros ? ?; solve [assumption | reflexivity] | intros ?]
  | |- quiet (Eff.ret _) => apply quiet_ret
  | |- quiet Eff.get => apply quiet_get
  | |- quiet (Eff.modify _) => apply quiet_modify
  | |- quiet (DoubanToCsv.log _) => apply quiet_modify
  | |- quiet (DoubanToCsv.sleep _) => apply quiet_modify
  | |- quiet (CsvToImdb.log _) => apply quiet_modify
  | |- quiet (CsvToImdb.sleep _) => apply quiet_modify
  | |- quiet (DoubanToCsv.ask _) => intros ? ? ?; discriminate
  | |- quiet (CsvToImdb.ask _) => intros ? ? ?; discriminate
  | |- quiet (Eff.raise _) => apply quiet_raise; solve [assumption | reflexivity]
  | |- quiet (match ?x with _ => _ end) => destruct x eqn:?
  | |- quiet (if ?x then _ else _) => destruct x eqn:?
  end.

Section QuietExporter.

Variable env : DoubanToCsv.environment.

Lemma uniform_quiet (a b : Z) : quiet (DoubanToCsv.uniform env a b).
Proof. unfold DoubanToCsv.uniform. repeat quiet_step. Qed.

Lemma backoff_quiet (attempt : nat) : quiet (DoubanToCsv.backoff env attempt).
Proof.
  unfold DoubanToCsv.backoff.
  apply quiet_bind; [apply uniform_quiet | intros ?; quiet_step].
Qed.

Lemma setup_driver_quiet (headless : bool) :
  quiet (DoubanToCsv.setup_driver env headless).
Proof. unfold DoubanToCsv.setup_driver. repeat quiet_step. Qed.

Lemma handler_quiet (url : string) (attempt : nat) (use_selenium : bool)
      (e : Py.exn) :
  quiet (DoubanToCsv.handler env url attempt use_selenium e).
Proof. unfold DoubanToCsv.handler. destruct e; repeat quiet_step. Qed.

Lemma make_request_loop_quiet (url : string) (n : nat) :
  forall (attempt : nat) (use_selenium : bool),
    quiet (DoubanToCsv.make_request_loop env url n attempt use_selenium).
Proof.
  induction n as [|n IH]; intros attempt use_selenium;
    cbn [DoubanToCsv.make_request_loop].
  - repeat quiet_step.
  - apply quiet_bind.
    + apply quiet_try_except; [reflexivity | apply handler_quiet].
    + intros [r | | us].
      * quiet_step.
      * apply IH.
      * apply quiet_bind; [|intros ?; apply IH].
        quiet_step; [apply backoff_quiet | quiet_step].
Qed.

Lemma make_request_quiet (url : string) (use_selenium : bool) :
  quiet (DoubanToCsv.make_request env url use_selenium).
Proof. unfold DoubanToCsv.make_request. apply make_request_loop_quiet. Qed.

Lemma get_imdb_id_quiet (url : string) : quiet (DoubanToCsv.get_imdb_id env url).
Proof. unfold DoubanToCsv.get_imdb_id. repeat quiet_step. Qed.







Lemma check_user_exist_quiet (user : string) :
  quiet (DoubanToCsv.check_user_exist env user).
Proof.
  unfold DoubanToCsv.check_user_exist.
  apply quiet_bind; [apply make_request_quiet | intros ?].
  repeat quiet_step.
Qed.

End QuietExporter.




(** The records of a page that was fetched: at most one for each item of
    the page, each with a rating from 1 to 5 or none and an id that starts
    with "tt" or none. *)
Theorem get_info_records_well_formed (env : DoubanToCsv.environment)
        (url : string) (w w1 w' : DoubanToCsv.world) (page : DoubanToCsv.soup)
        (records : list DoubanToCsv.record) :
  DoubanToCsv.make_request env url false w = (Py.Ret (Some page), w1) ->
  DoubanToCsv.get_info env url w = (Py.Ret (Some records), w') ->
  Forall well_formed records
  /\ (length records <= length (DoubanToCsv.movie_items page))%nat.
Proof.
  intros Hreq. unfold DoubanToCsv.get_info, Eff.bind. rewrite Hreq.
  destruct (DoubanToCsv.movie_items page) as [|it items] eqn:Hitems;
    [discriminate|].
  destruct (DoubanToCsv.get_info_loop env (it :: items) [] w1)
    as [[info|e] w2] eqn:Hloop; [|discriminate].
  intros H. inversion H. subst.
  apply (get_info_loop_well_formed env (it :: items) [] records w1 w'
           (Forall_nil _)) in Hloop as (Hwf & added & -> & Hlen).
  split; [exact Hwf | exact Hlen].
Qed.

Lemma get_info_records_well_formed_witness :
  fst (DoubanToCsv.get_info collection_then_detail first_page_url
                            DoubanToCsv.initial)
  = Py.Ret (Some [("Alien", Some 5, Some "tt0078748")])
  /\ Forall well_formed [("Alien", Some 5, Some "tt0078748")]
  /\ (1 <= length (DoubanToCsv.movie_items two_item_page))%nat.
Proof.
  split; [reflexivity|].
  exact (get_info_records_well_formed collection_then_detail first_page_url
           DoubanToCsv.initial _ _ two_item_page
           [("Alien", Some 5, Some "tt0078748")] eq_refl eq_refl).
Defined.

(** ** The exporter: the passes of [make_request] *)

Ltac split_answers env :=
  repeat match goal with
  | |- context [match DoubanToCsv.chrome env ?t with _ => _ end] =>
      destruct (DoubanToCsv.chrome env t) as [[]|]; cbn
  | |- context [match DoubanToCsv.driver_get env ?t with _ => _ end] =>
      destruct (DoubanToCsv.driver_get env t) as [[]| | |[] ?]; cbn
  | |- context [match DoubanToCsv.requests_get env ?t with _ => _ end] =>
      destruct (DoubanToCsv.requests_get env t) as [? ?|[]]; cbn
  | |- context [if DoubanToCsv.refresh env ?t then _ else _] =>
      destruct (DoubanToCsv.refresh env t); cbn
  | |- context [if (?c =? 200)%Z then _ else _] =>
      destruct (c =? 200)%Z; cbn
  | |- context [if (?c =? 403)%Z then _ else _] =>
      destruct (c =? 403)%Z eqn:?; cbn
  | |- context [if (?k <? 2)%nat then _ else _] =>
      destruct (k <? 2)%nat eqn:?; cbn
  | |- context [if (?k <=? 1)%nat then _ else _] =>
      destruct (k <=? 1)%nat eqn:?; cbn
  | |- context [if Py.contains ?a ?b then _ else _] =>
      destruct (Py.contains a b) eqn:?; cbn
  | |- context [if Py.contains ?a ?b && _ then _ else _] =>
      destruct (Py.contains a b) eqn:?; cbn
  end.

Section Passes.

Variable env : DoubanToCsv.environment.

(** A pass gives up only when it is the last one. *)
Lemma pass_gives_up (url : string) (k : nat) (us : bool)
      (w : DoubanToCsv.world) :
  fst (Eff.try_except (DoubanToCsv.attempt_body env url k us) (fun _ => true)
                      (DoubanToCsv.handler env url k us) w)
  = Py.Ret (DoubanToCsv.Return None) ->
  (k <? DoubanToCsv.MAX_RETRIES - 1)%nat = false.
Proof.
  destruct w as [sd over drv li clk tr].
  unfold DoubanToCsv.attempt_body, DoubanToCsv.handler,
    DoubanToCsv.setup_driver, DoubanToCsv.backoff, DoubanToCsv.uniform,
    DoubanToCsv.sleep, DoubanToCsv.log,
    DoubanToCsv.ask, Eff.try_except, Eff.bind, Eff.get, Eff.modify,
    Eff.ret, Eff.raise.
  destruct us; destruct drv as [d|]; cbn; split_answers env;
    intros H; try discriminate H; reflexivity.
Qed.

Lemma attempts_in_rev_app (s : list DoubanToCsv.event) (k : nat) (p : bool) :
  attempts_in s = [] ->
  attempts_in (rev (s ++ [DoubanToCsv.EvAttempt k p])) = [k].
Proof.
  intros Hs. rewrite rev_app_distr. cbn [rev app attempts_in flat_map].
  change (flat_map _ (rev s)) with (attempts_in (rev s)).
  rewrite (attempts_in_rev s Hs). reflexivity.
Qed.

Lemma make_request_loop_S (url : string) (n k : nat) (us : bool)
      (w : DoubanToCsv.world) :
  DoubanToCsv.make_request_loop env url (S n) k us w
  = match Eff.try_except (DoubanToCsv.attempt_body env url k us)
                         (fun _ => true)
                         (DoubanToCsv.handler env url k us) w with
    | (Py.Ret (DoubanToCsv.Return r), w1) => (Py.Ret r, w1)
    | (Py.Ret DoubanToCsv.Continue, w1) =>
        DoubanToCsv.make_request_loop env url n (S k) us w1
    | (Py.Ret (DoubanToCsv.Fallthrough us'), w1) =>
        DoubanToCsv.make_request_loop env url n (S k) us'
          (snd ((if (k <? DoubanToCsv.MAX_RETRIES - 1)%nat
                 then DoubanToCsv.backoff env k else Eff.ret tt) w1))
    | (Py.Raise e, w1) => (Py.Raise e, w1)
    end.
Proof.
  cbn [DoubanToCsv.make_request_loop]. unfold Eff.bind at 1.
  destruct (Eff.try_except _ _ _ w) as [[[r | | us']|e] w1]; try reflexivity.
  unfold Eff.bind at 1.
  destruct (k <? DoubanToCsv.MAX_RETRIES - 1)%nat; reflexivity.
Qed.

Lemma make_request_loop_passes (url : string) (n : nat) :
  forall (k : nat) (us : bool) (w : DoubanToCsv.world),
    exists s j,
      DoubanToCsv.trace (snd (DoubanToCsv.make_request_loop env url n k us w))
      = (s ++ DoubanToCsv.trace w)%list
      /\ attempts_in (rev s) = seq k j
      /\ (j <= n)%nat
      /\ (1 <= n -> 1 <= j)%nat
      /\ (fst (DoubanToCsv.make_request_loop env url n k us w) = Py.Ret None ->
          (k + n = DoubanToCsv.MAX_RETRIES)%nat -> j = n).
Proof.
  induction n as [|n IH]; intros k us w.
  - exists [DoubanToCsv.EvFailed url], 0%nat. cbn. repeat split; lia.
  - pose proof (attempt_shape env url k us w) as Hshape.
    pose proof (pass_gives_up url k us w) as Hgive.
    cbv zeta in Hshape. rewrite make_request_loop_S.
    destruct (Eff.try_except _ _ _ w) as [r w1].
    cbn [fst snd] in Hshape, Hgive.
    destruct Hshape as (others & Htrace & Hothers & _).
    set (p := takes_browser us w) in *.
    assert (Hone : attempts_in (rev (others ++ [DoubanToCsv.EvAttempt k p]))
                   = seq k 1)
      by (apply attempts_in_rev_app; exact Hothers).
    assert (Hstop : DoubanToCsv.trace w1
                    = ((others ++ [DoubanToCsv.EvAttempt k p])
                       ++ DoubanToCsv.trace w)%list).
    { rewrite Htrace, <- app_assoc. reflexivity. }
    destruct r as [[res | | us'] | e].
    + exists (others ++ [DoubanToCsv.EvAttempt k p])%list, 1%nat.
      cbn [fst snd]. split; [exact Hstop|]. split; [exact Hone|].
      split; [lia|]. split; [lia|].
      intros Hres Hkn. inversion Hres. subst.
      specialize (Hgive eq_refl). apply Nat.ltb_ge in Hgive.
      unfold DoubanToCsv.MAX_RETRIES in *. lia.
    + destruct (IH (S k) us w1) as (s & j & Hs & Hatt & Hj & _ & Hnone).
      exists (s ++ others ++ [DoubanToCsv.EvAttempt k p])%list, (S j).
      split; [rewrite Hs, Hstop, <- !app_assoc; reflexivity|].
      split.
      { rewrite rev_app_distr, attempts_in_app, Hone, Hatt. reflexivity. }
      split; [lia|]. split; [lia|].
      intros Hres Hkn. rewrite (Hnone Hres); lia.
    + assert (Hrun : exists sl,
                 DoubanToCsv.trace
                   (snd ((if (k <? DoubanToCsv.MAX_RETRIES - 1)%nat
                          then DoubanToCsv.backoff env k else Eff.ret tt) w1))
                 = (sl ++ DoubanToCsv.trace w1)%list
                 /\ attempts_in sl = []).
      { destruct (k <? DoubanToCsv.MAX_RETRIES - 1)%nat.
        - eexists [_]. repeat split.
        - exists []. repeat split. }
      destruct Hrun as (sl & Hsl & Hsl0).
      match goal with
      | |- context [DoubanToCsv.make_request_loop env url n (S k) us' ?w2] =>
          destruct (IH (S k) us' w2) as (s & j & Hs & Hatt & Hj & _ & Hnone)
      end.
      exists (s ++ sl ++ others ++ [DoubanToCsv.EvAttempt k p])%list, (S j).
      split; [rewrite Hs, Hsl, Hstop, <- !app_assoc; reflexivity|].
      split.
      { rewrite (rev_app_distr s), (rev_app_distr sl), !attempts_in_app.
        rewrite Hone, Hatt, (attempts_in_rev sl Hsl0). reflexivity. }
      split; [lia|]. split; [lia|].
      intros Hres Hkn. rewrite (Hnone Hres); lia.
    + exists (others ++ [DoubanToCsv.EvAttempt k p])%list, 1%nat.
      cbn [fst snd]. split; [exact Hstop|]. split; [exact Hone|].
      split; [lia|]. split; [lia|]. discriminate.
Qed.

End Passes.

(** Whatever the outside answers, one call of [make_request] makes at
    least one pass and at most [MAX_RETRIES], numbered from 0 on without a
    gap, and it returns [None] only once the last of them is made. *)
Theorem make_request_passes (env : DoubanToCsv.environment) (url : string)
        (use_selenium : bool) (w : DoubanToCsv.world) :
  exists j,
    (1 <= j <= DoubanToCsv.MAX_RETRIES)%nat
    /\ attempts_in
         (DoubanToCsv.history
            (snd (DoubanToCsv.make_request env url use_selenium w)))
       = (attempts_in (DoubanToCsv.history w) ++ seq 0 j)%list
    /\ (fst (DoubanToCsv.make_request env url use_selenium w) = Py.Ret None ->
        j = DoubanToCsv.MAX_RETRIES).
Proof.
  unfold DoubanToCsv.make_request.
  set (us := if Py.contains "douban.com" url && negb use_selenium
             then true else use_selenium).
  destruct (make_request_loop_passes env url DoubanToCsv.MAX_RETRIES 0 us w)
    as (s & j & Hs & Hatt & Hj & Hj1 & Hnone).
  exists j. split; [unfold DoubanToCsv.MAX_RETRIES in *; lia|].
  split.
  - unfold DoubanToCsv.history. rewrite Hs, rev_app_distr, attempts_in_app, Hatt.
    reflexivity.
  - intros H. apply (Hnone H). reflexivity.
Qed.

(** ** The exporter: browsers started and quit, files written *)

Section Ledger.

Variable env : DoubanToCsv.environment.
















End Ledger.








(** ** The exporter: the file *)






(** ** The exporter: the addresses of the pages *)

Lemma max_page_of_ge (links : list string) :
  forall m n, DoubanToCsv.max_page_of links m = Py.Ret n -> m <= n.
Proof.
  induction links as [|link links IH]; intros m n;
    cbn [DoubanToCsv.max_page_of].
  - intros H. inversion H. lia.
  - destruct (Py.isdigit link); [|apply IH].
    destruct (Py.int link) as [p|e]; cbn [Py.bind]; [|discriminate].
    intros H. apply IH in H. destruct (m <? p) eqn:Hmp; [|exact H].
    apply Z.ltb_lt in Hmp. lia.
Qed.

(** The addresses that [url_generator] gives are never none: either the
    address of the collection alone, or those of the pages 1 to [n] for
    some [n >= 1], the page [p] starting at the item [(p - 1) * 15]. *)
Theorem url_generator_pages (env : DoubanToCsv.environment) (user : string)
        (w : DoubanToCsv.world) (urls : list string) :
  fst (DoubanToCsv.url_generator env user w) = Py.Ret urls ->
  urls <> []
  /\ (urls = [grid_url user]
      \/ urls = map (fun p => DoubanToCsv.page_url user (Z.of_nat p))
                    (seq 1 (length urls))).
Proof.
  unfold DoubanToCsv.url_generator, Eff.bind.
  change (if Py.contains "mode=grid" (DoubanToCsv.collect_url user)
          then DoubanToCsv.collect_url user
          else DoubanToCsv.collect_url user
               ++ "?sort=time&rating=all&filter=all&mode=grid")
    with (grid_url user).
  assert (Hone : [grid_url user] <> []
                 /\ ([grid_url user] = [grid_url user]
                     \/ [grid_url user]
                        = map (fun p => DoubanToCsv.page_url user (Z.of_nat p))
                              (seq 1 (length [grid_url user])))).
  { split; [discriminate | left; reflexivity]. }
  destruct (DoubanToCsv.make_request env (grid_url user) false w)
    as [[[page|]|e] w1]; cbn [fst];
    [| intros H; inversion H; exact Hone | discriminate].
  destruct (DoubanToCsv.paginator page) as [[|link links]|];
    try (intros H; inversion H; exact Hone).
  destruct (DoubanToCsv.max_page_of (link :: links) 1) as [n|e] eqn:Hmax.
  - apply max_page_of_ge in Hmax.
    intros H. inversion H as [Hurls]. clear H.
    assert (Hn : exists k, Z.to_nat n = S k).
    { exists (Nat.pred (Z.to_nat n)). lia. }
    destruct Hn as [k Hk]. rewrite Hk. split.
    + cbn. discriminate.
    + right. rewrite length_map, length_seq. reflexivity.
  - destruct (Py.is_Exception e); [|discriminate].
    intros H; inversion H; exact Hone.
Qed.

Lemma url_generator_pages_witness :
  fst (DoubanToCsv.url_generator (serving three_page_collection) "someone"
                                 DoubanToCsv.initial)
  = Py.Ret (map (fun p => DoubanToCsv.page_url "someone" (Z.of_nat p))
                (seq 1 3))
  /\ map (fun p => DoubanToCsv.page_url "someone" (Z.of_nat p)) (seq 1 3)
     <> [].
Proof.
  split; [reflexivity|].
  exact (proj1 (url_generator_pages (serving three_page_collection) "someone"
                  DoubanToCsv.initial _ eq_refl)).
Defined.

(** ** From the exporter to the importer *)

(** A record as [get_info] makes them, once written and read back, is
    handled by the loop of [mark] as follows: without a rating it is passed
    over; with a rating and no id it is put in the list of the titles not
    found; with a rating [n] and an id, the search is made for that id and
    the star is [n * 2 + rating_ajust]. *)
Theorem exported_record_in_importer (env : CsvToImdb.environment)
        (is_unmark : bool) (rating_ajust : Z) (r : DoubanToCsv.record)
        (w : CsvToImdb.world) :
  well_formed r ->
  CsvToImdb.mark_row env is_unmark rating_ajust (texts_of_record r) w
  = match r with
    | (_, None, _) => (Py.Ret tt, w)
    | (title, Some n, None) => (Py.Ret tt, CsvToImdb.append_can_not_found title w)
    | (title, Some n, Some id) =>
        Eff.try_except
          (CsvToImdb.rate_on_site env is_unmark title id (n * 2 + rating_ajust))
          Py.is_Exception
          (row_failure env (texts_of_record r)) w
    end.
Proof.
  destruct r as [[title rating] imdb]. intros [_ Hid].
  unfold CsvToImdb.mark_row, texts_of_record.
  cbn [DoubanToCsv.row_of_record map Csv.cell_text].
  destruct rating as [n|]; [|reflexivity].
  unfold Eff.try_except, Eff.bind, Eff.lift.
  cbn [Py.index nth_error]. unfold CsvToImdb.movie_rate_of.
  assert (Htruthy : CsvToImdb.truthy (Py.str n) = true)
    by exact (int_truthy _ _ (int_str n)).
  cbn [Csv.cell_text]. rewrite Htruthy, int_str. cbn [negb Py.bind].
  destruct imdb as [id|]; cbn [Csv.cell_text]; [|reflexivity].
  unfold row_failure. rewrite Hid, (startswith_truthy _ _ _ Hid). reflexivity.
Qed.

Lemma exported_record_in_importer_witness :
  well_formed ("Alien", Some 5, Some "tt0078748")
  /\ CsvToImdb.trace
       (snd (CsvToImdb.mark_row obliging_site false (-1)
               (texts_of_record ("Alien", Some 5, Some "tt0078748"))
               CsvToImdb.initial))
     = [CsvToImdb.EvSleep 2; CsvToImdb.EvConfirm; CsvToImdb.EvSleep 1;
        CsvToImdb.EvClickStar 9; CsvToImdb.EvSleep 1;
        CsvToImdb.EvOpenRating; CsvToImdb.EvSleep 3;
        CsvToImdb.EvSearch "tt0078748"].
Proof.
  assert (H : well_formed ("Alien", Some 5, Some "tt0078748")).
  { split; [lia | reflexivity]. }
  split; [exact H|].
  rewrite (exported_record_in_importer obliging_site false (-1)
             ("Alien", Some 5, Some "tt0078748") CsvToImdb.initial H).
  reflexivity.
Defined.

(** ** The importer: the batch *)

Section Batch.

Variable env : CsvToImdb.environment.

Lemma or_record_error_quiet (m : Eff.M CsvToImdb.world unit) (entry : string) :
  quiet (CsvToImdb.or_record_error m entry).
Proof. unfold CsvToImdb.or_record_error. repeat quiet_step. Qed.



End Batch.



Ltac row_cases env :=
  repeat match goal with
  | |- context [CsvToImdb.truthy ?s] =>
      destruct (CsvToImdb.truthy s) eqn:?; cbn
  | |- context [Py.int ?s] => destruct (Py.int s) eqn:?; cbn
  | |- context [Py.startswith ?p ?s] =>
      destruct (Py.startswith p s) eqn:?; cbn
  | |- context [CsvToImdb.ui env ?t] =>
      destruct (CsvToImdb.ui env t) eqn:?; cbn
  | |- context [Py.is_Exception ?e] =>
      destruct (Py.is_Exception e) eqn:?; cbn
  | |- context [if ?b then _ else _] => is_var b; destruct b; cbn
  end.

(** What one row changes: at most one more outcome, and at most one more
    search, made for the third field of the row when it starts with "tt"
    and [int] reads the second. *)
Lemma mark_row_step (env : CsvToImdb.environment) (is_unmark : bool)
      (rating_ajust : Z) (line : list string) (w : CsvToImdb.world) :
  (outcomes w
   <= outcomes (snd (CsvToImdb.mark_row env is_unmark rating_ajust line w))
   <= outcomes w + 1)%nat
  /\ (searches (CsvToImdb.trace
                  (snd (CsvToImdb.mark_row env is_unmark rating_ajust line w)))
      = searches (CsvToImdb.trace w)
      \/ exists id field n,
          searches (CsvToImdb.trace
                      (snd (CsvToImdb.mark_row env is_unmark rating_ajust
                                               line w)))
          = id :: searches (CsvToImdb.trace w)
          /\ nth_error line 2 = Some id
          /\ Py.startswith "tt" id = true
          /\ nth_error line 1 = Some field
          /\ Py.int field = Py.Ret n).
Proof.
  destruct w as [drv sm su cnf am nm em clk tr].
  unfold CsvToImdb.mark_row, CsvToImdb.rate_on_site, CsvToImdb.or_record_error,
    CsvToImdb.movie_rate_of, CsvToImdb.sleep, CsvToImdb.log, CsvToImdb.ask,
    Eff.try_except, Eff.bind, Eff.lift, Eff.get, Eff.modify, Eff.ret,
    Eff.raise, Py.index.
  destruct line as [|a [|b [|c rest]]]; cbn; row_cases env.
  all: split;
    [ unfold outcomes; cbn; rewrite ?length_app; cbn; lia
    | first [ left; reflexivity
            | right; do 3 eexists;
              repeat split; solve [reflexivity | eassumption] ] ].
Qed.

Lemma mark_rows_cons (env : CsvToImdb.environment) (is_unmark : bool)
      (rating_ajust : Z) (line : list string) (content : list (list string))
      (w : CsvToImdb.world) :
  CsvToImdb.mark_rows env is_unmark rating_ajust (line :: content) w
  = match CsvToImdb.mark_row env is_unmark rating_ajust line w with
    | (Py.Ret _, w1) => CsvToImdb.mark_rows env is_unmark rating_ajust content w1
    | (Py.Raise e, w1) => (Py.Raise e, w1)
    end.
Proof. reflexivity. Qed.

(** Every row ends in at most one of the outcomes that the summary
    reports: over a batch the successes and the lists never shrink, and
    they grow by no more than the number of rows, also when the batch is
    interrupted. *)
Theorem one_outcome_per_row (env : CsvToImdb.environment) (is_unmark : bool)
        (rating_ajust : Z) (content : list (list string))
        (w : CsvToImdb.world) :
  (outcomes w
   <= outcomes (snd (CsvToImdb.mark_rows env is_unmark rating_ajust content w))
   <= outcomes w + length content)%nat.
Proof.
  revert w. induction content as [|line content IH]; intros w.
  - cbn. lia.
  - rewrite mark_rows_cons.
    pose proof (mark_row_step env is_unmark rating_ajust line w) as [Hrow _].
    destruct (CsvToImdb.mark_row env is_unmark rating_ajust line w)
      as [[[]|e] w1]; cbn [snd length] in *.
    + specialize (IH w1). lia.
    + lia.
Qed.

Lemma searches_cons (e : CsvToImdb.event) (events : list CsvToImdb.event) :
  searches (e :: events)
  = (match e with CsvToImdb.EvSearch id => [id] | _ => [] end
     ++ searches events)%list.
Proof. reflexivity. Qed.

(** A search is made only for the id of a row whose rating [int] reads
    and whose id starts with "tt". *)
Theorem searches_are_for_rated_rows (env : CsvToImdb.environment)
        (is_unmark : bool) (rating_ajust : Z) (content : list (list string))
        (w : CsvToImdb.world) (id : string) :
  In id (searches (CsvToImdb.trace
                     (snd (CsvToImdb.mark_rows env is_unmark rating_ajust
                                               content w)))) ->
  In id (searches (CsvToImdb.trace w))
  \/ exists line field n,
      In line content
      /\ nth_error line 2 = Some id
      /\ Py.startswith "tt" id = true
      /\ nth_error line 1 = Some field
      /\ Py.int field = Py.Ret n.
Proof.
  revert w. induction content as [|line content IH]; intros w.
  - cbn. auto.
  - rewrite mark_rows_cons.
    pose proof (mark_row_step env is_unmark rating_ajust line w) as [_ Hrow].
    assert (Hhere : In id (searches
                             (CsvToImdb.trace
                                (snd (CsvToImdb.mark_row env is_unmark
                                        rating_ajust line w)))) ->
                    In id (searches (CsvToImdb.trace w))
                    \/ exists line0 field n,
                        In line0 (line :: content)
                        /\ nth_error line0 2 = Some id
                        /\ Py.startswith "tt" id = true
                        /\ nth_error line0 1 = Some field
                        /\ Py.int field = Py.Ret n).
    { destruct Hrow as [-> | (id' & field & n & -> & H2 & Htt & H1 & Hint)];
        [auto|].
      intros [<- | Hin]; [|auto].
      right. exists line, field, n. cbn [In]. auto. }
    destruct (CsvToImdb.mark_row env is_unmark rating_ajust line w)
      as [[[]|e] w1]; cbn [snd] in *; [|exact Hhere].
    intros Hin. destruct (IH w1 Hin) as [H | (l & f & n & Hl & H)].
    + exact (Hhere H).
    + right. exists l, f, n. cbn [In]. auto.
Qed.

Lemma searches_are_for_rated_rows_witness :
  In "tt0078748"
     (searches (CsvToImdb.trace
                  (snd (CsvToImdb.mark_rows obliging_site false (-1)
                          [["Alien"; "5"; "tt0078748"]] CsvToImdb.initial))))
  /\ (In "tt0078748" (searches (CsvToImdb.trace CsvToImdb.initial))
      \/ exists line field n,
          In line [["Alien"; "5"; "tt0078748"]]
          /\ nth_error line 2 = Some "tt0078748"
          /\ Py.startswith "tt" "tt0078748" = true
          /\ nth_error line 1 = Some field
          /\ Py.int field = Py.Ret n).
Proof.
  assert (H : In "tt0078748"
                 (searches (CsvToImdb.trace
                    (snd (CsvToImdb.mark_rows obliging_site false (-1)
                            [["Alien"; "5"; "tt0078748"]] CsvToImdb.initial))))).
  { left. reflexivity. }
  split; [exact H|].
  exact (searches_are_for_rated_rows obliging_site false (-1)
           [["Alien"; "5"; "tt0078748"]] CsvToImdb.initial "tt0078748" H).
Defined.

(** [mark] returns only when the login went through and the file was read
    to its end; the browser has then been quit, and the summary, printed
    last, reports the counters and the lists as they are at the end. *)
Theorem mark_returns_after_quit (env : CsvToImdb.environment)
        (is_unmark : bool) (rating_ajust : Z) (file : string)
        (w w' : CsvToImdb.world) :
  CsvToImdb.mark env is_unmark rating_ajust file w = (Py.Ret tt, w') ->
  CsvToImdb.login_raises env = None
  /\ snd (Csv.reader_rows file) = None
  /\ CsvToImdb.driver w' = false
  /\ exists rest,
      CsvToImdb.trace w'
      = CsvToImdb.EvSummary is_unmark
          (if is_unmark then CsvToImdb.success_unmarked w'
           else CsvToImdb.success_marked w')
          (CsvToImdb.can_not_found w')
          (if is_unmark then CsvToImdb.never_marked w'
           else CsvToImdb.already_marked w')
          (CsvToImdb.error_movies w')
        :: CsvToImdb.EvQuit :: rest.
Proof.
  unfold CsvToImdb.mark, CsvToImdb.login. unfold Eff.bind at 1 2.
  cbn [CsvToImdb.log Eff.modify].
  destruct (CsvToImdb.login_raises env) as [e|]; [discriminate|].
  cbn [Eff.modify]. unfold Eff.bind at 1. cbn [Eff.modify].
  unfold Eff.bind at 1.
  destruct (Csv.reader_rows file) as [content error].
  unfold Eff.bind at 1.
  match goal with
  | |- context [CsvToImdb.mark_rows env is_unmark rating_ajust content ?w0] =>
      destruct (CsvToImdb.mark_rows env is_unmark rating_ajust content w0)
        as [[[]|e] w1]; [|discriminate]
  end.
  destruct error as [e|]; [discriminate|].
  cbn. intros H. inversion H. subst w'. clear H.
  split; [reflexivity|]. split; [reflexivity|]. split; [reflexivity|].
  exists (CsvToImdb.trace w1). destruct is_unmark; reflexivity.
Qed.

Lemma mark_returns_after_quit_witness :
  fst (CsvToImdb.mark obliging_site false (-1)
         ("Alien,5,tt0078748" ++ String Csv.LF "") CsvToImdb.initial)
  = Py.Ret tt
  /\ CsvToImdb.driver
       (snd (CsvToImdb.mark obliging_site false (-1)
               ("Alien,5,tt0078748" ++ String Csv.LF "") CsvToImdb.initial))
     = false.
Proof.
  split; [reflexivity|].
  exact (proj1 (proj2 (proj2
           (mark_returns_after_quit obliging_site false (-1)
              ("Alien,5,tt0078748" ++ String Csv.LF "") CsvToImdb.initial _
              eq_refl)))).
Defined.

Lemma mark_row_untouched (env : CsvToImdb.environment) (is_unmark : bool)
      (rating_ajust : Z) (line : list string) (w : CsvToImdb.world) :
  untouched is_unmark
            (snd (CsvToImdb.mark_row env is_unmark rating_ajust line w))
  = untouched is_unmark w.
Proof.
  destruct w as [drv sm su cnf am nm em clk tr].
  unfold CsvToImdb.mark_row, CsvToImdb.rate_on_site, CsvToImdb.or_record_error,
    CsvToImdb.movie_rate_of, CsvToImdb.sleep, CsvToImdb.log, CsvToImdb.ask,
    Eff.try_except, Eff.bind, Eff.lift, Eff.get, Eff.modify, Eff.ret,
    Eff.raise, Py.index.
  destruct is_unmark; destruct line as [|a [|b [|c rest]]]; cbn;
    row_cases env; reflexivity.
Qed.

(** The mode is kept through a batch: when it rates, the importer clicks
    no delete button and leaves the count of removed ratings and the list
    of the films never rated as they were; when it removes ratings, it
    clicks no star and leaves the count of ratings made and the list of
    the films already rated as they were. *)
Theorem batch_keeps_to_its_mode (env : CsvToImdb.environment)
        (rating_ajust : Z) (content : list (list string))
        (w : CsvToImdb.world) :
  (deletions (CsvToImdb.trace
                (snd (CsvToImdb.mark_rows env false rating_ajust content w)))
   = deletions (CsvToImdb.trace w)
   /\ CsvToImdb.success_unmarked
        (snd (CsvToImdb.mark_rows env false rating_ajust content w))
      = CsvToImdb.success_unmarked w
   /\ CsvToImdb.never_marked
        (snd (CsvToImdb.mark_rows env false rating_ajust content w))
      = CsvToImdb.never_marked w)
  /\ (stars_clicked
        (CsvToImdb.trace
           (snd (CsvToImdb.mark_rows env true rating_ajust content w)))
      = stars_clicked (CsvToImdb.trace w)
      /\ CsvToImdb.success_marked
           (snd (CsvToImdb.mark_rows env true rating_ajust content w))
         = CsvToImdb.success_marked w
      /\ CsvToImdb.already_marked
           (snd (CsvToImdb.mark_rows env true rating_ajust content w))
         = CsvToImdb.already_marked w).
Proof.
  assert (Hrows : forall is_unmark w0,
             untouched is_unmark
               (snd (CsvToImdb.mark_rows env is_unmark rating_ajust content w0))
             = untouched is_unmark w0).
  { intros is_unmark. induction content as [|line content IH]; intros w0;
      [reflexivity|].
    rewrite mark_rows_cons.
    pose proof (mark_row_untouched env is_unmark rating_ajust line w0) as Hrow.
    destruct (CsvToImdb.mark_row env is_unmark rating_ajust line w0)
      as [[[]|e] w1]; cbn [snd] in *.
    - rewrite IH. exact Hrow.
    - exact Hrow. }
  pose proof (Hrows false w) as Hmark. pose proof (Hrows true w) as Hunmark.
  unfold untouched in Hmark, Hunmark.
  inversion Hmark. inversion Hunmark. repeat split; assumption.
Qed.
